(** * The air-quality CSV workflow of [pm-a-new-function_filled.ipynb]

    A shallow embedding of the notebook's data-processing cells

      df = pd.read_csv(data_filepath)
      df.dropna(how='any', axis=0, inplace=True)
      df['ReadingDateTime'] = df['ReadingDateTime'].astype('datetime64')
      df.set_index('ReadingDateTime', inplace=True, drop=True)
      pivoted = pd.pivot_table(df, index=['ReadingDateTime'],
                               columns=['Species'], values='Value')
      weekly_mean = pivoted.resample('W', label='right').mean()
      weekly_mean['Hazardous'] = weekly_mean['NOX'] > 50.
      output_filepath = output_folder / 'WeeklyMeanAQ.csv'
      weekly_mean.to_csv(output_filepath)

    and of the function [process_csv_file] the notebook defines.

    Conventions of the embedding.
    - The pandas calls are modelled by what they compute on a table with
      the columns [ReadingDateTime], [Species], [Value] and any number of
      further text columns; [Value] is a numeric column.
    - A missing cell (pandas NaN) is [None]; a missing time stamp of a
      [datetime64] column is [NaT].
    - Readings are exact rationals ([Qc]); the rounding of binary64
      arithmetic is not part of the model.
    - A time stamp is a number of nanoseconds since 1970-01-01T00:00, as
      in [datetime64[ns]].
    - The string-to-datetime conversion of [astype('datetime64')] is a
      parameter ([to_datetime]) of the development; [parse_datetime]
      below is one such conversion. *)

From Stdlib Require Import QArith Qcanon OrdersEx Ascii String.
From stdpp Require Import base numbers list sorting strings gmap.

Local Open Scope Z_scope.

(** ** Errors raised by the workflow *)

Inductive exception : Type :=
  | FileNotFoundError
  | ValueError    (* astype('datetime64') on a string that is no date *)
  | KeyError.     (* weekly_mean['NOX'] when there is no such column  *)

Inductive result (A : Type) : Type :=
  | Ok (a : A)
  | Raise (e : exception).
Arguments Ok {A} a.
Arguments Raise {A} e.

Global Instance result_ret : MRet result := λ A a, Ok a.
Global Instance result_bind : MBind result := λ A B k m,
  match m with
  | Ok a => k a
  | Raise e => Raise e
  end.


(** ** Numbers: the mean and the comparison with a threshold *)

Definition Qc_of_nat (n : nat) : Qc := Qc_of_Z (Z.of_nat n).

Definition sum (l : list Qc) : Qc := foldr Qcplus 0%Qc l.

(** [mean] of the values present; NaN ([None]) when there is none. *)
Definition mean (l : list Qc) : option Qc :=
  match l with
  | [] => None
  | _ :: _ => Some (sum l / Qc_of_nat (length l))%Qc
  end.

(** [x > c] on a cell: a comparison with NaN is [False]. *)
Definition gt (x : option Qc) (c : Qc) : bool :=
  match x with
  | Some v => bool_decide (c < v)%Qc
  | None => false
  end.

(** ** Time stamps and the weekly frequency ['W'] (weeks ending on Sunday) *)

Inductive datetime64 : Type :=
  | NaT
  | Timestamp (ns : Z).

Global Instance datetime64_eq_dec : EqDecision datetime64.
Proof. solve_decision. Defined.

Definition NS_PER_DAY : Z := 86400000000000.
Definition WEEK : Z := 7 * NS_PER_DAY.

(** The calendar day of a time stamp (days since 1970-01-01). *)
Definition day (t : Z) : Z := t `div` NS_PER_DAY.

(** Monday is 0 and Sunday is 6; 1970-01-01 was a Thursday. *)
Definition weekday (d : Z) : Z := (d + 3) `mod` 7.

(** The label of the weekly bucket of [t]: midnight of the Sunday that
    closes the Monday-to-Sunday week of [t]. *)
Definition week_label (t : Z) : Z :=
  (day t + (6 - weekday (day t))) * NS_PER_DAY.

(** The bucket labelled [L]: the time stamps from Monday 00:00 up to the
    last nanosecond of the Sunday [L]. *)
Definition in_bucket (L t : Z) : Prop :=
  L - 6 * NS_PER_DAY ≤ t < L + NS_PER_DAY.

(** A bucket label is the midnight of a Sunday. *)
Definition is_label (L : Z) : Prop :=
  L `mod` NS_PER_DAY = 0 ∧ weekday (day L) = 6.

(** [date_range(first, last, freq='W')] for two bucket labels. *)
Definition week_range (first last : Z) : list Z :=
  (λ k : nat, first + Z.of_nat k * WEEK) <$>
    seq 0 (S (Z.to_nat ((last - first) `div` WEEK))).

Definition minimum (x : Z) (l : list Z) : Z := foldr Z.min x l.
Definition maximum (x : Z) (l : list Z) : Z := foldr Z.max x l.

(** ** Sorted, duplicate-free keys *)

Definition string_le (s1 s2 : string) : Prop :=
  String_as_OT.compare s1 s2 ≠ Gt.

Global Instance string_le_dec : RelDecision string_le.
Proof. intros s1 s2. unfold string_le. apply _. Defined.

Definition sort_unique {A} `{EqDecision A} (R : relation A)
    `{∀ x y, Decision (R x y)} (l : list A) : list A :=
  merge_sort R (remove_dups l).

(** ** Tables *)

(** One record of the Input Table. [T] is the type of the time-stamp
    cell: a string as read from the file, a [datetime64] after [astype],
    nothing once the column has become the index. *)
Record reading (T : Type) : Type := Reading {
  ReadingDateTime : T;
  Species : option string;
  Value : option Qc;
  other_columns : list (option string)
}.
Arguments Reading {T} _ _ _ _.
Arguments ReadingDateTime {T} _.
Arguments Species {T} _.
Arguments Value {T} _.
Arguments other_columns {T} _.

(** A frame indexed by time, with named columns of cells of type [C]. *)
Record DataFrame (C : Type) : Type := Frame {
  columns : list string;
  rows : list (datetime64 * list C)
}.
Arguments Frame {C} _ _.
Arguments columns {C} _.
Arguments rows {C} _.

(** A cell of the frame that is written out: a number or a flag. *)
Inductive cell : Type :=
  | Float (x : option Qc)
  | Bool (b : bool).

(** [row[c]]: the cell of a row under the column named [c]. *)
Fixpoint get {C} (cols : list string) (cells : list C) (c : string)
    : option C :=
  match cols, cells with
  | c' :: cols', x :: cells' =>
      if decide (c' = c) then Some x else get cols' cells' c
  | _, _ => None
  end.

(** [df[c] = ...], on the column names and on the cells of one row: an
    existing column is overwritten, a new one is appended. *)
Definition assign_columns (cols : list string) (c : string) : list string :=
  if decide (c ∈ cols) then cols else cols ++ [c].

Fixpoint assign_cells {C} (cols : list string) (cells : list C)
    (c : string) (x : C) : list C :=
  match cols, cells with
  | c' :: cols', y :: cells' =>
      if decide (c' = c) then x :: cells'
      else y :: assign_cells cols' cells' c x
  | _, _ => cells ++ [x]
  end.

(** ** The steps of the workflow *)

Definition notna {A} (x : option A) : bool :=
  match x with Some _ => true | None => false end.

(** A record with no missing value in any column. *)
Definition complete (r : reading (option string)) : bool :=
  notna (ReadingDateTime r) && notna (Species r) && notna (Value r)
  && forallb notna (other_columns r).

(** [df.dropna(how='any', axis=0)] *)
Definition dropna (df : list (reading (option string)))
    : list (reading (option string)) :=
  filter (λ r, complete r) df.

(** [pd.pivot_table(df, index=['ReadingDateTime'], columns=['Species'],
    values='Value')], with the default [aggfunc='mean'] and
    [dropna=True]. The records are grouped by (index, Species); records
    with a missing key or a missing value are in no group. The result
    has one row for each time stamp, in increasing order, one column for
    each species, in alphabetical order, and the cell of a pair is the
    mean of the values of its group (NaN when the group is empty). *)
Definition observation (r : datetime64 * reading ())
    : option (Z * string * Qc) :=
  match r.1, Species r.2, Value r.2 with
  | Timestamp t, Some c, Some v => Some (t, c, v)
  | _, _, _ => None
  end.

Definition observations (df : list (datetime64 * reading ()))
    : list (Z * string * Qc) :=
  omap observation df.

Definition group (obs : list (Z * string * Qc)) (t : Z) (c : string)
    : list Qc :=
  (filter (λ o, o.1 = (t, c)) obs).*2.

Definition pivot_table (df : list (datetime64 * reading ()))
    : DataFrame (option Qc) :=
  let obs := observations df in
  let cols := sort_unique string_le (obs.*1.*2) in
  Frame cols
    ((λ t, (Timestamp t, (λ c, mean (group obs t c)) <$> cols)) <$>
       sort_unique Z.le (obs.*1.*1)).

(** [df.resample('W', label='right').mean()]. The frequency ['W'] is
    weekly, anchored on Sunday, with bins closed on the right: a row
    falls in the bin of the Sunday that ends its Monday-to-Sunday week,
    whatever its time of day, and the bin is labelled by the date of
    that Sunday. The result has one row for every Sunday from the bin of
    the earliest row to the bin of the latest one, with the mean of the
    values present in each column (NaN when there is none). *)
Definition timestamps {C} (df : DataFrame C) : list Z :=
  omap (λ r, match r.1 with Timestamp t => Some t | NaT => None end)
       (rows df).

Definition bucket_values (df : DataFrame (option Qc)) (L : Z) (c : string)
    : list Qc :=
  omap (λ r, match r.1 with
             | Timestamp t =>
                 if decide (week_label t = L)
                 then mjoin (get (columns df) r.2 c) else None
             | NaT => None
             end)
       (rows df).

Definition resample_mean (df : DataFrame (option Qc))
    : DataFrame (option Qc) :=
  match timestamps df with
  | [] => Frame (columns df) []
  | t0 :: ts =>
      Frame (columns df)
        ((λ L, (Timestamp L,
                (λ c, mean (bucket_values df L c)) <$> columns df)) <$>
           week_range (week_label (minimum t0 ts))
                      (week_label (maximum t0 ts)))
  end.

(** The rows of a frame whose time stamp falls in the bucket labelled
    [L]. *)
Global Instance in_bucket_dec (L t : Z) : Decision (in_bucket L t).
Proof. unfold in_bucket. apply _. Defined.

Definition in_bucket_row {C} (L : Z) (r : datetime64 * list C) : Prop :=
  match r.1 with
  | Timestamp t => in_bucket L t
  | NaT => False
  end.

Global Instance in_bucket_row_dec {C} (L : Z) (r : datetime64 * list C)
  : Decision (in_bucket_row L r).
Proof. unfold in_bucket_row. destruct (r.1); apply _. Defined.

Definition bucket_rows {C} (df : DataFrame C) (L : Z)
    : list (datetime64 * list C) :=
  filter (in_bucket_row L) (rows df).

(** [weekly_mean['Hazardous'] = weekly_mean['NOX'] > 50.]
    [weekly_mean['NOX']] raises [KeyError] when no species is NOX. *)
Definition threshold : Qc := Qc_of_Z 50.

Definition Hazardous (cols : list string) (cells : list (option Qc)) : bool :=
  gt (mjoin (get cols cells "NOX")) threshold.

Definition add_Hazardous (df : DataFrame (option Qc))
    : result (DataFrame cell) :=
  if decide ("NOX" ∈ columns df) then
    Ok (Frame (assign_columns (columns df) "Hazardous")
          ((λ r, (r.1, assign_cells (columns df) (Float <$> r.2) "Hazardous"
                         (Bool (Hazardous (columns df) r.2)))) <$>
             rows df))
  else Raise KeyError.

Section Workflow.

(** The conversion of a string to a [datetime64] that
    [astype('datetime64')] applies: [None] when the string is no date,
    and [NaT] for the strings that pandas reads as a missing date (such
    as ["NaT"], which [read_csv] leaves as it is). *)
Variable to_datetime : string → option datetime64.

(** [df['ReadingDateTime'].astype('datetime64')]: a missing cell
    becomes [NaT], a string that is no date raises. *)
Definition astype_cell (x : option string) : result datetime64 :=
  match x with
  | None => Ok NaT
  | Some s =>
      match to_datetime s with
      | Some d => Ok d
      | None => Raise ValueError
      end
  end.

Fixpoint astype (df : list (reading (option string)))
    : result (list (reading datetime64)) :=
  match df with
  | [] => Ok []
  | r :: df' =>
      t ← astype_cell (ReadingDateTime r);
      rest ← astype df';
      Ok (Reading t (Species r) (Value r) (other_columns r) :: rest)
  end.

(** [df.set_index('ReadingDateTime', drop=True)] *)
Definition set_index (df : list (reading datetime64))
    : list (datetime64 * reading ()) :=
  (λ r, (ReadingDateTime r,
         Reading () (Species r) (Value r) (other_columns r))) <$> df.

(** The cells of the notebook from [dropna] to [set_index]. *)
Definition cleaned (df : list (reading (option string)))
    : result (list (datetime64 * reading ())) :=
  typed ← astype (dropna df);
  Ok (set_index typed).

Definition pivoted (df : list (reading (option string)))
    : result (DataFrame (option Qc)) :=
  indexed ← cleaned df;
  Ok (pivot_table indexed).

(** The Resampled Table before and after the flag is added. *)
Definition weekly_mean (df : list (reading (option string)))
    : result (DataFrame (option Qc)) :=
  wide ← pivoted df;
  Ok (resample_mean wide).

Definition flagged (df : list (reading (option string)))
    : result (DataFrame cell) :=
  weekly ← weekly_mean df;
  add_Hazardous weekly.

(** The long form of the input: the (time stamp, category, value)
    triples of the records that [dropna] keeps and that have a time
    stamp. *)
Definition triple (r : reading (option string)) : option (Z * string * Qc) :=
  s ← ReadingDateTime r;
  d ← to_datetime s;
  c ← Species r;
  v ← Value r;
  match d with
  | Timestamp t => Some (t, c, v)
  | NaT => None
  end.

Definition triples (df : list (reading (option string)))
    : list (Z * string * Qc) :=
  omap triple (dropna df).

End Workflow.

(** ** Files, and the function the notebook defines *)

Abbreviation Path := (list string).

(** [folder / name] of [pathlib]. *)
Definition joinpath (folder : Path) (name : string) : Path := folder ++ [name].

(** What a csv file holds: the records of an input file, or a frame
    written by [to_csv]. *)
Inductive file : Type :=
  | Records (table : list (reading (option string)))
  | Written (table : DataFrame cell).

Record filesystem : Type := FileSystem {
  folders : gset Path;
  files : gmap Path file
}.

(** [pd.read_csv]. A file written by [to_csv] has no column [Species]
    or [Value], so the workflow raises [KeyError] on it. *)
Definition read_csv (fs : filesystem) (p : Path)
    : result (list (reading (option string))) :=
  match files fs !! p with
  | Some (Records table) => Ok table
  | Some (Written _) => Raise KeyError
  | None => Raise FileNotFoundError
  end.

Definition path_exists (fs : filesystem) (p : Path) : bool :=
  bool_decide (p ∈ folders fs ∨ is_Some (files fs !! p)).

(** [p.mkdir(parents=True)]: the folder and the folders above it. *)
Definition mkdir_parents (fs : filesystem) (p : Path) : filesystem :=
  FileSystem (folders fs ∪ list_to_set ((λ n, take n p) <$> seq 1 (length p)))
             (files fs).

(** [df.to_csv(p)], into a folder that exists. *)
Definition to_csv (fs : filesystem) (folder : Path) (name : string)
    (df : DataFrame cell) : result filesystem :=
  if decide (folder ∈ folders fs)
  then Ok (FileSystem (folders fs) (<[joinpath folder name := Written df]> (files fs)))
  else Raise FileNotFoundError.

(** The argument [fill_with] of [process_csv_file]: [np.nan] by default,
    a string in the call the notebook makes. *)
Inductive fill_value : Type :=
  | FillNaN
  | FillFloat (x : Qc)
  | FillStr (s : string).

(** [def process_csv_file(filepath, output_folder, fill_with): pass]
    The body of the function is the statement [pass]: the call has no
    effect on the file system and evaluates to [None]. *)
Definition process_csv_file (fs : filesystem) (filepath output_folder : Path)
    (fill_with : fill_value) : filesystem * option Path :=
  (fs, None).

Section Notebook.

Variable to_datetime : string → option datetime64.

(** The cells of the notebook run in order on the files [fs]; the
    result is the new state of the files and [output_filepath]. *)
Definition notebook (fs : filesystem) (data_filepath output_folder : Path)
    : result (filesystem * Path) :=
  df ← read_csv fs data_filepath;
  weekly ← flagged to_datetime df;
  let fs1 := if path_exists fs output_folder then fs
             else mkdir_parents fs output_folder in
  let output_filepath := joinpath output_folder "WeeklyMeanAQ.csv" in
  fs2 ← to_csv fs1 output_folder "WeeklyMeanAQ.csv" weekly;
  Ok (fs2, output_filepath).

End Notebook.

(** ** Wide to long *)


(** ** A string-to-datetime conversion: [YYYY-MM-DD HH:MM:SS] *)

Definition digit (a : ascii) : option Z :=
  let n := Z.of_nat (nat_of_ascii a) in
  if decide (48 ≤ n ≤ 57) then Some (n - 48) else None.

Fixpoint number (acc : Z) (l : list ascii) : option Z :=
  match l with
  | [] => Some acc
  | a :: l' => d ← digit a; number (10 * acc + d) l'
  end.

(** Days from 1970-01-01 to the day [d] of month [m] of year [y] in the
    proleptic Gregorian calendar. *)
Definition days_from_civil (y m d : Z) : Z :=
  let y' := if decide (m ≤ 2) then y - 1 else y in
  let era := y' `div` 400 in
  let yoe := y' - era * 400 in
  let doy := (153 * ((m + 9) `mod` 12) + 2) `div` 5 + d - 1 in
  let doe := yoe * 365 + yoe `div` 4 - yoe `div` 100 + doy in
  era * 146097 + doe - 719468.

Definition iso_datetime (s : string) : option Z :=
  match list_ascii_of_string s with
  | [y1; y2; y3; y4; "-"; m1; m2; "-"; d1; d2; " ";
     h1; h2; ":"; n1; n2; ":"; s1; s2]%char =>
      y ← number 0 [y1; y2; y3; y4];
      m ← number 0 [m1; m2];
      d ← number 0 [d1; d2];
      h ← number 0 [h1; h2];
      n ← number 0 [n1; n2];
      sec ← number 0 [s1; s2];
      if decide (1 ≤ m ≤ 12 ∧ 1 ≤ d ≤ 31 ∧ h < 24 ∧ n < 60 ∧ sec < 60)
      then Some (days_from_civil y m d * NS_PER_DAY
                 + ((h * 60 + n) * 60 + sec) * 1000000000)
      else None
  | _ => None
  end.

(** The conversion used on the sample tables. *)
Definition parse_datetime (s : string) : option datetime64 :=
  if decide (s = "NaT") then Some NaT else Timestamp <$> iso_datetime s.

(** ** Sample tables *)

Definition sample (s c : string) (v : Z) : reading (option string) :=
  Reading (Some s) (Some c) (Some (Qc_of_Z v))
          [Some "Oxford Street"; Some "ug m-3"].

(** The four records of the example: NOX and PM10 at two times. *)
Definition example_rows (s1 s2 : string) : list (reading (option string)) :=
  [ Reading (Some s1) (Some "NOX") (Some (Qc_of_Z 40)) [];
    Reading (Some s1) (Some "PM10") (Some (Qc_of_Z 10)) [];
    Reading (Some s2) (Some "NOX") (Some (Qc_of_Z 60)) [];
    Reading (Some s2) (Some "PM10") (Some (Qc_of_Z 12)) [] ].

Definition example_triples (t1 t2 : Z) : list (Z * string * Qc) :=
  [ (t1, "NOX", Qc_of_Z 40); (t1, "PM10", Qc_of_Z 10);
    (t2, "NOX", Qc_of_Z 60); (t2, "PM10", Qc_of_Z 12) ].

(** Monday 2018-01-01 and Tuesday 2018-01-02, NOX and PM10. *)
Definition one_week : list (reading (option string)) :=
  [ sample "2018-01-01 00:00:00" "NOX" 40;
    sample "2018-01-01 00:00:00" "PM10" 10;
    sample "2018-01-02 00:00:00" "NOX" 60;
    sample "2018-01-02 00:00:00" "PM10" 12 ].


(** Readings three weeks apart, a Sunday afternoon, records with a
    missing value, and a record whose date is the string ["NaT"]. *)
Definition three_weeks : list (reading (option string)) :=
  [ sample "2018-01-21 13:00:00" "PM10" 10;
    sample "2018-01-01 00:00:00" "NOX" 70;
    sample "NaT" "NOX" 900;
    Reading (Some "2018-01-03 00:00:00") (Some "NOX") None
            [Some "Oxford Street"; Some "ug m-3"];
    Reading None (Some "PM10") (Some (Qc_of_Z 12))
            [Some "Oxford Street"; None];
    sample "2018-01-04 09:00:00" "NOX" 50 ].

(** Time stamps of January 2018, and the tables that the workflow makes
    of the samples. *)
Definition Mon_01 : Z := 1514764800000000000.   (* 2018-01-01 00:00 *)
Definition Tue_02 : Z := 1514851200000000000.   (* 2018-01-02 00:00 *)
Definition Thu_04_09h : Z := 1515056400000000000. (* 2018-01-04 09:00 *)
Definition Sun_07 : Z := 1515283200000000000.   (* 2018-01-07 00:00 *)
Definition Sun_14 : Z := 1515888000000000000.   (* 2018-01-14 00:00 *)
Definition Sun_21 : Z := 1516492800000000000.   (* 2018-01-21 00:00 *)
Definition Sun_21_13h : Z := 1516539600000000000. (* 2018-01-21 13:00 *)



Definition three_weeks_wide : DataFrame (option Qc) :=
  Frame ["NOX"; "PM10"]
    [ (Timestamp Mon_01, [Some (Qc_of_Z 70); None]);
      (Timestamp Thu_04_09h, [Some (Qc_of_Z 50); None]);
      (Timestamp Sun_21_13h, [None; Some (Qc_of_Z 10)]) ].

Definition three_weeks_out : DataFrame cell :=
  Frame ["NOX"; "PM10"; "Hazardous"]
    [ (Timestamp Sun_07, [Float (Some (Qc_of_Z 60)); Float None; Bool true]);
      (Timestamp Sun_14, [Float None; Float None; Bool false]);
      (Timestamp Sun_21, [Float None; Float (Some (Qc_of_Z 10)); Bool false]) ].

(** The files of the notebook: the data file in [../data], and the
    folder of the call
    [process_csv_file(data_filepath,
                      output_folder=Path("../data/another_processed_data_folder/"),
                      fill_with=" ")]. *)
Definition data_filepath : Path :=
  [".."; "data"; "OxfordStreetAirQuality.csv"].

Definition another_processed_data_folder : Path :=
  [".."; "data"; "another_processed_data_folder"].

Definition sample_files : filesystem :=
  FileSystem {[ [".."]; [".."; "data"] ]}
             {[ data_filepath := Records one_week ]}.



Definition bad_date : list (reading (option string)) :=
  [ sample "2018-01-01 00:00:00" "NOX" 40;
    sample "yesterday" "NOX" 60 ].

Definition bad_date_incomplete : list (reading (option string)) :=
  [ sample "2018-01-01 00:00:00" "NOX" 40;
    Reading (Some "yesterday") (Some "NOX") None
            [Some "Oxford Street"; Some "ug m-3"] ].

Definition species_Hazardous : list (reading (option string)) :=
  [ sample "2018-01-01 00:00:00" "NOX" 70;
    sample "2018-01-01 00:00:00" "Hazardous" 3 ].

Definition species_Hazardous_out : DataFrame cell :=
  Frame ["Hazardous"; "NOX"]
    [ (Timestamp Sun_07, [Bool true; Float (Some (Qc_of_Z 70))]) ].

Definition three_weeks_indexed : list (datetime64 * reading ()) :=
  [ (Timestamp Sun_21_13h,
     Reading () (Some "PM10") (Some (Qc_of_Z 10))
             [Some "Oxford Street"; Some "ug m-3"]);
    (Timestamp Mon_01,
     Reading () (Some "NOX") (Some (Qc_of_Z 70))
             [Some "Oxford Street"; Some "ug m-3"]);
    (NaT,
     Reading () (Some "NOX") (Some (Qc_of_Z 900))
             [Some "Oxford Street"; Some "ug m-3"]);
    (Timestamp Thu_04_09h,
     Reading () (Some "NOX") (Some (Qc_of_Z 50))
             [Some "Oxford Street"; Some "ug m-3"]) ].

Definition one_week_out : DataFrame cell :=
  Frame ["NOX"; "PM10"; "Hazardous"]
    [ (Timestamp Sun_07,
       [Float (Some (Qc_of_Z 50)); Float (Some (Qc_of_Z 11)); Bool false]) ].

(** The files after the cells have run on [sample_files]. *)
Definition sample_files_after : filesystem :=
  FileSystem {[ [".."]; [".."; "data"]; another_processed_data_folder ]}
             {[ data_filepath := Records one_week;
                joinpath another_processed_data_folder "WeeklyMeanAQ.csv"
                  := Written one_week_out ]}.

(** ** Decidable equality of the tables *)

Global Instance exception_eq_dec : EqDecision exception.
Proof. solve_decision. Defined.
Global Instance result_eq_dec {A} `{EqDecision A} : EqDecision (result A).
Proof. solve_decision. Defined.
Global Instance cell_eq_dec : EqDecision cell.
Proof. solve_decision. Defined.
Global Instance reading_eq_dec {T} `{EqDecision T} : EqDecision (reading T).
Proof. solve_decision. Defined.
Global Instance DataFrame_eq_dec {C} `{EqDecision C}
  : EqDecision (DataFrame C).
Proof.
  refine (λ x y, cast_if_and (decide (columns x = columns y))
                             (decide (rows x = rows y)));
    destruct x, y; simpl in *; congruence.
Defined.

Global Instance file_eq_dec : EqDecision file.
Proof. solve_decision. Defined.
Global Instance filesystem_eq_dec : EqDecision filesystem.
Proof. solve_decision. Defined.

(** * Properties *)

(** ** The order on column names *)

Global Instance string_le_total : Total string_le.
Proof.
  intros s1 s2. unfold string_le.
  destruct (String_as_OT.compare_spec s1 s2) as [Heq|Hlt|Hgt].
  - left. discriminate.
  - left. discriminate.
  - right. unfold String_as_OT.lt in Hgt. rewrite Hgt. discriminate.
Qed.

Global Instance string_le_antisym : AntiSymm (=) string_le.
Proof.
  intros s1 s2. unfold string_le. intros H1 H2.
  destruct (String_as_OT.compare_spec s1 s2) as [Heq|Hlt|Hgt]; [done| |done].
  destruct (String_as_OT.compare_spec s2 s1) as [Heq'|Hlt'|Hgt']; [done| |done].
  destruct (irreflexivity String_as_OT.lt s1). by etrans.
Qed.

Global Instance string_le_trans : Transitive string_le.
Proof.
  intros s1 s2 s3. unfold string_le. intros H1 H2.
  destruct (String_as_OT.compare_spec s1 s2) as [->|H12|?]; [done| |done].
  destruct (String_as_OT.compare_spec s2 s3) as [<-|H23|?]; [|clear H2|done].
  - unfold String_as_OT.lt in H12. by rewrite H12.
  - assert (String_as_OT.lt s1 s3) as H13 by (by etrans).
    unfold String_as_OT.lt in H13. by rewrite H13.
Qed.

(** ** [sort_unique] *)

Section sort_unique.
Context {A : Type} `{EqDecision A} (R : relation A).
Context `{∀ x y, Decision (R x y)}.
Context `{!Total R, !Transitive R, !AntiSymm (=) R}.

Lemma elem_of_sort_unique (l : list A) (x : A) :
  x ∈ sort_unique R l ↔ x ∈ l.
Proof.
  unfold sort_unique.
  by rewrite merge_sort_Permutation, elem_of_remove_dups.
Qed.

Lemma NoDup_sort_unique (l : list A) : NoDup (sort_unique R l).
Proof.
  unfold sort_unique. rewrite merge_sort_Permutation.
  apply NoDup_remove_dups.
Qed.

Lemma StronglySorted_sort_unique (l : list A) :
  StronglySorted R (sort_unique R l).
Proof. apply StronglySorted_merge_sort; apply _. Qed.

(** The result is determined by the set of the elements. *)
Lemma sort_unique_ext (l1 l2 : list A) :
  (∀ x, x ∈ l1 ↔ x ∈ l2) → sort_unique R l1 = sort_unique R l2.
Proof.
  intros Hext.
  apply (StronglySorted_unique R); try apply StronglySorted_sort_unique.
  apply NoDup_Permutation; try apply NoDup_sort_unique.
  intros x. by rewrite !elem_of_sort_unique.
Qed.


(** A sorted list without duplicates is its own [sort_unique]. *)
Lemma sort_unique_id (l : list A) :
  StronglySorted R l → NoDup l → sort_unique R l = l.
Proof.
  intros Hs Hn.
  apply (StronglySorted_unique R); [apply StronglySorted_sort_unique|done|].
  apply NoDup_Permutation; [apply NoDup_sort_unique|done|].
  intros x. by rewrite elem_of_sort_unique.
Qed.
End sort_unique.

(** ** The mean *)



Lemma mean_None (l : list Qc) : mean l = None ↔ l = [].
Proof. by destruct l. Qed.

Lemma Qc_of_nat_S_ne_0 (n : nat) : Qc_of_nat (S n) ≠ 0%Qc.
Proof.
  unfold Qc_of_nat. rewrite <-Z2Qc_inj_0. intros Heq%Z2Qc_inj. lia.
Qed.

Lemma Qc_of_nat_S (n : nat) : Qc_of_nat (S n) = (1 + Qc_of_nat n)%Qc.
Proof.
  unfold Qc_of_nat. rewrite Nat2Z.inj_succ, <-Z.add_1_l.
  by rewrite Z2Qc_inj_add, Z2Qc_inj_1.
Qed.

(** The sum of [n] copies of [v]. *)
Lemma sum_constant (v : Qc) (l : list Qc) :
  Forall (λ x, x = v) l → sum l = (Qc_of_nat (length l) * v)%Qc.
Proof.
  induction 1 as [|x l -> _ IH].
  - change (Qc_of_nat (length [])) with (Qc_of_Z 0).
    by rewrite Z2Qc_inj_0, Qcmult_0_l.
  - change (sum (v :: l)) with (v + sum l)%Qc.
    change (length (v :: l)) with (S (length l)).
    rewrite Qc_of_nat_S, IH. ring.
Qed.

Lemma mean_constant (v : Qc) (l : list Qc) :
  l ≠ [] → Forall (λ x, x = v) l → mean l = Some v.
Proof.
  intros Hne Hall. destruct l as [|x l]; [done|].
  unfold mean. rewrite (sum_constant v) by done. f_equal.
  rewrite Qcmult_comm. unfold Qcdiv.
  rewrite <-Qcmult_assoc, Qcmult_inv_r, Qcmult_1_r; [done|].
  apply Qc_of_nat_S_ne_0.
Qed.

(** ** Cells of a row *)

Lemma get_fmap_cols {C} (f : string → C) (cols : list string) (c : string) :
  c ∈ cols → get cols (f <$> cols) c = Some (f c).
Proof.
  induction cols as [|c' cols IH]; simpl.
  - by intros ?%elem_of_nil.
  - intros Hin. case_decide as Hc; [by subst|].
    apply IH. apply elem_of_cons in Hin as [->|?]; done.
Qed.

Lemma get_not_elem_of {C} (cols : list string) (cells : list C) (c : string) :
  c ∉ cols → get cols cells c = None.
Proof.
  revert cells. induction cols as [|c' cols IH]; intros [|x cells] Hc; simpl;
    try done.
  case_decide as Heq.
  - subst. destruct Hc. by left.
  - apply IH. intros ?. apply Hc. by right.
Qed.

Lemma get_fmap_cells {C D} (g : C → D) (cols : list string)
    (cells : list C) (c : string) :
  get cols (g <$> cells) c = g <$> get cols cells c.
Proof.
  revert cells. induction cols as [|c' cols IH]; intros [|x cells]; simpl;
    try done.
  by case_decide.
Qed.

Lemma get_is_Some {C} (cols : list string) (cells : list C) (c : string) :
  length cols = length cells → c ∈ cols → is_Some (get cols cells c).
Proof.
  revert cells. induction cols as [|c' cols IH]; intros [|x cells] Hlen Hin;
    simpl in *; try done.
  - by apply elem_of_nil in Hin.
  - case_decide as Heq; [by eexists|].
    apply IH; [lia|]. apply elem_of_cons in Hin as [->|?]; done.
Qed.

Lemma assign_cells_elem_of {C} (cols : list string) (cells : list C)
    (c : string) (x : C) :
  length cols = length cells → c ∈ cols →
  get cols (assign_cells cols cells c x) c = Some x.
Proof.
  revert cells. induction cols as [|c' cols IH]; intros [|y cells] Hlen Hin;
    simpl in *; try done.
  - by apply elem_of_nil in Hin.
  - destruct (decide (c' = c)) as [Heq|Heq]; simpl; [done|].
    apply IH; [lia|]. apply elem_of_cons in Hin as [->|?]; done.
Qed.

Lemma assign_cells_not_elem_of {C} (cols : list string) (cells : list C)
    (c : string) (x : C) :
  length cols = length cells → c ∉ cols →
  assign_cells cols cells c x = cells ++ [x].
Proof.
  revert cells. induction cols as [|c' cols IH]; intros [|y cells] Hlen Hin;
    simpl in *; try done.
  rewrite decide_False.
  - f_equal. apply IH; [lia|]. intros ?. apply Hin. by right.
  - intros ->. apply Hin. by left.
Qed.

Lemma get_app_new {C} (cols : list string) (cells : list C)
    (c c' : string) (x : C) :
  length cols = length cells → c ∉ cols →
  get (cols ++ [c]) (cells ++ [x]) c' =
    if decide (c = c') then Some x else get cols cells c'.
Proof.
  revert cells. induction cols as [|c0 cols IH]; intros [|y cells] Hlen Hin;
    simpl in *; try done.
  destruct (decide (c0 = c')) as [->|H0].
  - rewrite decide_False; [done|].
    intros ->. apply Hin. by left.
  - apply IH; [lia|]. intros ?. apply Hin. by right.
Qed.

Lemma get_assign_cells_ne {C} (cols : list string) (cells : list C)
    (c c' : string) (x : C) :
  length cols = length cells → c ≠ c' →
  get cols (assign_cells cols cells c x) c' = get cols cells c'.
Proof.
  intros Hlen Hne. revert cells Hlen.
  induction cols as [|c0 cols IH]; intros [|y cells] Hlen; simpl in *;
    try done.
  destruct (decide (c0 = c)) as [->|H0]; simpl.
  - by rewrite !decide_False.
  - destruct (decide (c0 = c')); [done|]. apply IH. lia.
Qed.

(** Reading back the column that was assigned, and any other column. *)
Lemma get_assign_eq {C} (cols : list string) (cells : list C)
    (c : string) (x : C) :
  length cols = length cells →
  get (assign_columns cols c) (assign_cells cols cells c x) c = Some x.
Proof.
  intros Hlen. unfold assign_columns. case_decide as Hin.
  - by apply assign_cells_elem_of.
  - rewrite assign_cells_not_elem_of, get_app_new by done.
    by rewrite decide_True.
Qed.

Lemma get_assign_ne {C} (cols : list string) (cells : list C)
    (c c' : string) (x : C) :
  length cols = length cells → c ≠ c' →
  get (assign_columns cols c) (assign_cells cols cells c x) c' =
    get cols cells c'.
Proof.
  intros Hlen Hne. unfold assign_columns. case_decide as Hin.
  - by apply get_assign_cells_ne.
  - rewrite assign_cells_not_elem_of, get_app_new by done.
    by rewrite decide_False.
Qed.

(** ** Weeks *)

Ltac week_arith :=
  unfold is_label, in_bucket, week_label, weekday, day, WEEK, NS_PER_DAY in *;
  Z.div_mod_to_equations; lia.

Lemma week_label_is_label (t : Z) : is_label (week_label t).
Proof. split; week_arith. Qed.

Lemma in_bucket_week_label (t : Z) : in_bucket (week_label t) t.
Proof. week_arith. Qed.

Lemma week_label_unique (L t : Z) :
  is_label L → in_bucket L t → week_label t = L.
Proof. intros [??] ?. week_arith. Qed.

Lemma week_label_iff (L t : Z) :
  is_label L → week_label t = L ↔ in_bucket L t.
Proof.
  intros HL. split.
  - intros <-. apply in_bucket_week_label.
  - by apply week_label_unique.
Qed.


Lemma week_label_mono (t1 t2 : Z) :
  t1 ≤ t2 → week_label t1 ≤ week_label t2.
Proof. intros ?. week_arith. Qed.

Lemma week_label_step (t1 t2 : Z) :
  (week_label t2 - week_label t1) `mod` WEEK = 0.
Proof. week_arith. Qed.

(** ** Dropping the incomplete records *)

Lemma elem_of_dropna (df : list (reading (option string)))
    (r : reading (option string)) :
  r ∈ dropna df ↔ r ∈ df ∧ complete r = true.
Proof.
  unfold dropna. rewrite list_elem_of_filter, Is_true_true. tauto.
Qed.

Lemma Forall_complete_dropna (df : list (reading (option string))) :
  Forall (λ r, complete r = true) (dropna df).
Proof. apply Forall_forall. intros r Hr. by apply elem_of_dropna in Hr as [_ ?]. Qed.

Lemma dropna_complete (df : list (reading (option string))) :
  Forall (λ r, complete r = true) df → dropna df = df.
Proof.
  unfold dropna. induction 1 as [|r df Hr _ IH]; [done|].
  rewrite filter_cons_True by (by apply Is_true_true). by rewrite IH.
Qed.

(** C5. [dropna(how='any')] is idempotent: dropping the incomplete
    records of a table that [dropna] has already cleaned removes no
    record, so the rows and their number are unchanged. *)
Theorem dropna_idempotent (df : list (reading (option string))) :
  dropna (dropna df) = dropna df ∧
  length (dropna (dropna df)) = length (dropna df).
Proof.
  assert (dropna (dropna df) = dropna df) as ->; [|done].
  apply dropna_complete, Forall_complete_dropna.
Qed.

Section Workflow_facts.

Variable to_datetime : string → option datetime64.

Local Abbreviation astype := (astype to_datetime).
Local Abbreviation astype_cell := (astype_cell to_datetime).

(** The only exception of [astype] is [ValueError]. *)
Lemma astype_cell_Raise (x : option string) (e : exception) :
  astype_cell x = Raise e → e = ValueError.
Proof.
  destruct x as [s|]; simpl; [|done].
  destruct (to_datetime s); [done|]. by intros [= <-].
Qed.

Lemma astype_cons (r : reading (option string))
    (df : list (reading (option string))) :
  astype (r :: df) =
    match astype_cell (ReadingDateTime r), astype df with
    | Ok t, Ok rest =>
        Ok (Reading t (Species r) (Value r) (other_columns r) :: rest)
    | Ok _, Raise e => Raise e
    | Raise e, _ => Raise e
    end.
Proof.
  simpl. destruct (astype_cell (ReadingDateTime r)); simpl; [|done].
  by destruct (astype df).
Qed.



End Workflow_facts.

(** ** The pivot does not depend on the order of the records *)




Section Shuffle.

Variable to_datetime : string → option datetime64.




End Shuffle.

(** ** The shape of the Wide Table *)

Section Pivot_facts.

Variable df : list (datetime64 * reading ()).

Local Abbreviation obs := (observations df).

Lemma columns_pivot_table :
  columns (pivot_table df) = sort_unique string_le (obs.*1.*2).
Proof. done. Qed.

Lemma rows_pivot_table :
  rows (pivot_table df) =
    (λ t, (Timestamp t,
           (λ c, mean (group obs t c)) <$> columns (pivot_table df))) <$>
      sort_unique Z.le (obs.*1.*1).
Proof. done. Qed.

Lemma timestamps_fmap {C} (cols : list string) (f : Z → list C)
    (l : list Z) :
  timestamps (Frame cols ((λ t, (Timestamp t, f t)) <$> l)) = l.
Proof.
  unfold timestamps. simpl. induction l as [|t l IH]; [done|].
  rewrite fmap_cons. simpl. by f_equal.
Qed.

Lemma timestamps_pivot_table :
  timestamps (pivot_table df) = sort_unique Z.le (obs.*1.*1).
Proof. apply timestamps_fmap. Qed.

Lemma elem_of_keys (t : Z) (c : string) :
  (t, c) ∈ obs.*1 ↔ ∃ v, (t, c, v) ∈ obs.
Proof.
  rewrite list_elem_of_fmap. split.
  - intros ([[t' c'] v] & Heq & Hin). simpl in Heq. simplify_eq. eauto.
  - intros [v Hv]. by exists (t, c, v).
Qed.

Lemma elem_of_columns_pivot_table (c : string) :
  c ∈ columns (pivot_table df) ↔ ∃ t v, (t, c, v) ∈ obs.
Proof.
  rewrite columns_pivot_table, (elem_of_sort_unique _), list_elem_of_fmap.
  split.
  - intros ([t c'] & Heq & Hin). simpl in Heq. subst c'.
    apply elem_of_keys in Hin as [v Hv]. eauto.
  - intros (t & v & Ho). exists (t, c). split; [done|].
    apply elem_of_keys. eauto.
Qed.

Lemma elem_of_index_pivot_table (t : Z) :
  t ∈ sort_unique Z.le (obs.*1.*1) ↔ ∃ c v, (t, c, v) ∈ obs.
Proof.
  rewrite (elem_of_sort_unique _), list_elem_of_fmap. split.
  - intros ([t' c] & Heq & Hin). simpl in Heq. subst t'.
    apply elem_of_keys in Hin as [v Hv]. eauto.
  - intros (c & v & Ho). exists (t, c). split; [done|].
    apply elem_of_keys. eauto.
Qed.


Lemma elem_of_group (t : Z) (c : string) (v : Qc) :
  v ∈ group obs t c ↔ (t, c, v) ∈ obs.
Proof.
  unfold group. rewrite list_elem_of_fmap. split.
  - intros ([[t' c'] v'] & Heq & [Hk Ho]%list_elem_of_filter).
    simpl in *. by simplify_eq.
  - intros Ho. exists (t, c, v). split; [done|].
    by apply list_elem_of_filter.
Qed.



End Pivot_facts.

(** ** The records that reach the pivot *)

Section Cleaned_facts.

Variable to_datetime : string → option datetime64.

Lemma observations_astype (df : list (reading (option string)))
    (typed : list (reading datetime64)) :
  astype to_datetime df = Ok typed →
  observations (set_index typed) = omap (triple to_datetime) df.
Proof.
  revert typed. induction df as [|r df IH]; intros typed.
  - by intros [= <-].
  - rewrite astype_cons.
    destruct (astype_cell to_datetime (ReadingDateTime r)) as [t|] eqn:Hc;
      [|done].
    destruct (astype to_datetime df) as [rest|]; [|done]. intros [= <-].
    change (observations (set_index (?x :: rest)))
      with (match observation (ReadingDateTime x,
                     Reading () (Species x) (Value x) (other_columns x)) with
            | Some o => o :: observations (set_index rest)
            | None => observations (set_index rest)
            end).
    change (omap (triple to_datetime) (r :: df))
      with (match triple to_datetime r with
            | Some o => o :: omap (triple to_datetime) df
            | None => omap (triple to_datetime) df
            end).
    rewrite (IH rest eq_refl).
    unfold observation, triple. simpl.
    destruct r as [[s|] sp val oth]; simpl in *.
    + destruct (to_datetime s) as [d|]; simplify_eq/=.
      by destruct t, sp, val.
    + by simplify_eq/=.
Qed.

Lemma observations_cleaned (df : list (reading (option string)))
    (indexed : list (datetime64 * reading ())) :
  cleaned to_datetime df = Ok indexed →
  observations indexed = triples to_datetime df.
Proof.
  unfold cleaned, triples.
  destruct (astype to_datetime (dropna df)) as [typed|] eqn:Ha; [|done].
  intros [= <-]. by apply observations_astype.
Qed.

Lemma pivoted_Ok (df : list (reading (option string)))
    (wide : DataFrame (option Qc)) :
  pivoted to_datetime df = Ok wide →
  ∃ indexed, cleaned to_datetime df = Ok indexed ∧
             observations indexed = triples to_datetime df ∧
             wide = pivot_table indexed.
Proof.
  unfold pivoted.
  destruct (cleaned to_datetime df) as [indexed|] eqn:Hc; [|done].
  intros [= <-]. exists indexed. split; [done|]. split; [|done].
  by apply observations_cleaned.
Qed.



End Cleaned_facts.

(** ** The range of the labels *)

Lemma week_range_lookup (a b : Z) (i : nat) (L : Z) :
  week_range a b !! i = Some L ↔
  (i ≤ Z.to_nat ((b - a) `div` WEEK))%nat ∧ L = a + Z.of_nat i * WEEK.
Proof.
  unfold week_range. rewrite list_lookup_fmap, fmap_Some. split.
  - intros (k & [-> ?]%lookup_seq & ->). split; [lia|done].
  - intros [? ->]. exists i. split; [|done]. apply lookup_seq. lia.
Qed.

Lemma elem_of_week_range (a b L : Z) :
  L ∈ week_range a b ↔
  ∃ i : nat, (i ≤ Z.to_nat ((b - a) `div` WEEK))%nat ∧
             L = a + Z.of_nat i * WEEK.
Proof.
  rewrite list_elem_of_lookup. by setoid_rewrite week_range_lookup.
Qed.

Lemma week_range_head (a b : Z) : head (week_range a b) = Some a.
Proof. unfold week_range. simpl. f_equal. lia. Qed.

Lemma week_range_last (a b : Z) :
  a ≤ b → (b - a) `mod` WEEK = 0 → last (week_range a b) = Some b.
Proof.
  intros Hab Hmod. rewrite last_lookup.
  assert (length (week_range a b) = S (Z.to_nat ((b - a) `div` WEEK))) as ->.
  { unfold week_range. by rewrite length_fmap, length_seq. }
  simpl. apply week_range_lookup. split; [done|].
  unfold WEEK, NS_PER_DAY in *. Z.div_mod_to_equations. lia.
Qed.

Lemma week_range_is_label (a b L : Z) :
  is_label a → L ∈ week_range a b → is_label L.
Proof.
  intros [Ha1 Ha2] (i & _ & ->)%elem_of_week_range.
  split; week_arith.
Qed.

Lemma week_range_increasing (a b : Z) (i j : nat) (Li Lj : Z) :
  week_range a b !! i = Some Li → week_range a b !! j = Some Lj →
  (i < j)%nat → Li < Lj.
Proof.
  intros [_ ->]%week_range_lookup [_ ->]%week_range_lookup Hij.
  unfold WEEK, NS_PER_DAY. lia.
Qed.

Lemma NoDup_week_range (a b : Z) : NoDup (week_range a b).
Proof.
  apply NoDup_alt. intros i j L Hi Hj.
  destruct (Nat.lt_total i j) as [Hlt|[->|Hlt]]; [|done|].
  - pose proof (week_range_increasing _ _ _ _ _ _ Hi Hj Hlt). lia.
  - pose proof (week_range_increasing _ _ _ _ _ _ Hj Hi Hlt). lia.
Qed.

(** The earliest and the latest time stamp. *)
Lemma minimum_spec (x : Z) (l : list Z) :
  minimum x l ∈ x :: l ∧ ∀ y, y ∈ x :: l → minimum x l ≤ y.
Proof.
  unfold minimum. induction l as [|z l [IH1 IH2]]; simpl.
  - split; [by left|]. intros y ->%list_elem_of_singleton. lia.
  - split.
    + destruct (Z.min_spec z (foldr Z.min x l)) as [[_ ->]|[_ ->]].
      * right. by left.
      * apply elem_of_cons in IH1 as [->|?]; [by left|]. by do 2 right.
    + intros y [->|[->|Hy]%elem_of_cons]%elem_of_cons.
      * specialize (IH2 x (list_elem_of_here _ _)). lia.
      * lia.
      * specialize (IH2 y (list_elem_of_further _ _ _ Hy)). lia.
Qed.

Lemma maximum_spec (x : Z) (l : list Z) :
  maximum x l ∈ x :: l ∧ ∀ y, y ∈ x :: l → y ≤ maximum x l.
Proof.
  unfold maximum. induction l as [|z l [IH1 IH2]]; simpl.
  - split; [by left|]. intros y ->%list_elem_of_singleton. lia.
  - split.
    + destruct (Z.max_spec z (foldr Z.max x l)) as [[_ ->]|[_ ->]].
      * apply elem_of_cons in IH1 as [->|?]; [by left|]. by do 2 right.
      * right. by left.
    + intros y [->|[->|Hy]%elem_of_cons]%elem_of_cons.
      * specialize (IH2 x (list_elem_of_here _ _)). lia.
      * lia.
      * specialize (IH2 y (list_elem_of_further _ _ _ Hy)). lia.
Qed.

(** The bucket of a time stamp between two others is in the range of
    their buckets. *)
Lemma week_label_in_range (lo hi t : Z) :
  lo ≤ t ≤ hi → week_label t ∈ week_range (week_label lo) (week_label hi).
Proof.
  intros [Hlo Hhi]. apply elem_of_week_range.
  pose proof (week_label_mono _ _ Hlo) as H1.
  pose proof (week_label_mono _ _ Hhi) as H2.
  pose proof (week_label_step lo t) as H3.
  exists (Z.to_nat ((week_label t - week_label lo) `div` WEEK)).
  revert H1 H2 H3.
  generalize (week_label t), (week_label lo), (week_label hi).
  intros Lt Llo Lhi H1 H2 H3. unfold WEEK, NS_PER_DAY in *. split.
  - apply Z2Nat.inj_le; [| |apply Z.div_le_mono]; try lia.
    + apply Z.div_pos; lia.
    + apply Z.div_pos; lia.
  - rewrite Z2Nat.id by (apply Z.div_pos; lia).
    Z.div_mod_to_equations. lia.
Qed.

Global Instance Timestamp_inj : Inj (=) (=) Timestamp.
Proof. by intros t1 t2 [= ->]. Qed.

Lemma omap_cons_match {A B} (f : A → option B) (x : A) (l : list A) :
  omap f (x :: l) =
    match f x with Some y => y :: omap f l | None => omap f l end.
Proof. done. Qed.

(** ** The shape of the Resampled Table *)

Section Resample_facts.

Variable df : DataFrame (option Qc).

Lemma columns_resample_mean : columns (resample_mean df) = columns df.
Proof. unfold resample_mean. by destruct (timestamps df). Qed.

Lemma rows_resample_mean (t0 : Z) (ts : list Z) :
  timestamps df = t0 :: ts →
  rows (resample_mean df) =
    (λ L, (Timestamp L,
           (λ c, mean (bucket_values df L c)) <$> columns df)) <$>
      week_range (week_label (minimum t0 ts)) (week_label (maximum t0 ts)).
Proof. intros Hts. unfold resample_mean. by rewrite Hts. Qed.

Lemma elem_of_rows_resample_mean (r : datetime64 * list (option Qc)) :
  r ∈ rows (resample_mean df) →
  ∃ L, is_label L ∧
       r = (Timestamp L, (λ c, mean (bucket_values df L c)) <$> columns df).
Proof.
  destruct (timestamps df) as [|t0 ts] eqn:Hts.
  - unfold resample_mean. rewrite Hts. by intros ?%elem_of_nil.
  - rewrite (rows_resample_mean t0 ts Hts).
    intros (L & -> & HL)%list_elem_of_fmap. exists L. split; [|done].
    eapply week_range_is_label; [|done]. apply week_label_is_label.
Qed.

Lemma elem_of_timestamps {C} (d : DataFrame C) (t : Z) :
  t ∈ timestamps d ↔ ∃ cells, (Timestamp t, cells) ∈ rows d.
Proof.
  unfold timestamps. rewrite list_elem_of_omap. split.
  - intros ([[|t'] cells] & Hin & Heq); simplify_eq/=. eauto.
  - intros [cells Hin]. by exists (Timestamp t, cells).
Qed.

(** The values that are averaged for the bucket labelled [L] are the
    values present in the rows of the frame that fall in the bucket. *)
Lemma bucket_values_bucket_rows (L : Z) (c : string) :
  is_label L →
  bucket_values df L c =
    omap (λ r, mjoin (get (columns df) r.2 c)) (bucket_rows df L).
Proof.
  intros HL. unfold bucket_values, bucket_rows.
  induction (rows df) as [|[lab cells] l IH]; [done|].
  rewrite omap_cons_match. cbv beta. cbn [fst snd]. rewrite IH.
  destruct lab as [|t].
  - by rewrite filter_cons_False by (by intros ?).
  - destruct (decide (in_bucket L t)) as [Hin|Hout].
    + rewrite filter_cons_True by done.
      rewrite decide_True by (by apply week_label_unique).
      by rewrite omap_cons_match.
    + rewrite filter_cons_False by done.
      rewrite decide_False; [done|].
      by intros ?%week_label_iff.
Qed.

(** The cell of a row of the result, by the rows of the bucket. *)
Lemma resample_mean_cell (L : Z) (cells : list (option Qc)) (c : string) :
  (Timestamp L, cells) ∈ rows (resample_mean df) → c ∈ columns df →
  is_label L ∧
  get (columns (resample_mean df)) cells c =
    Some (mean (omap (λ r, mjoin (get (columns df) r.2 c))
                     (bucket_rows df L))).
Proof.
  intros (L' & HL & [= -> ->])%elem_of_rows_resample_mean Hc.
  split; [done|]. rewrite columns_resample_mean.
  rewrite <-bucket_values_bucket_rows by done.
  by apply (get_fmap_cols (λ c, mean (bucket_values df L' c))).
Qed.


(** C7. The Resampled Table of a table that is not empty has one row for
    every week from the week of its earliest time stamp to the week of
    its latest one: the labels are distinct, start at the week of the
    earliest time stamp, end at the week of the latest one, and go up by
    exactly one week from a row to the next (so the buckets are
    contiguous and increasing); the week of every time stamp of the
    table has its row; and the row of a week in which no row of the
    table falls has a missing value in every column. *)
Theorem resample_one_row_per_week (t0 : Z) (ts : list Z) :
  timestamps df = t0 :: ts →
  let labels := (rows (resample_mean df)).*1 in
  NoDup labels ∧
  head labels = Some (Timestamp (week_label (minimum t0 ts))) ∧
  last labels = Some (Timestamp (week_label (maximum t0 ts))) ∧
  (∀ i x y, labels !! i = Some x → labels !! S i = Some y →
     ∃ L, x = Timestamp L ∧ y = Timestamp (L + WEEK) ∧ is_label L) ∧
  (∀ t, t ∈ timestamps df → Timestamp (week_label t) ∈ labels) ∧
  (∀ L cells, (Timestamp L, cells) ∈ rows (resample_mean df) →
     bucket_rows df L = [] →
     length cells = length (columns df) ∧ Forall (λ x, x = None) cells).
Proof.
  intros Hts labels.
  assert (labels = Timestamp <$>
            week_range (week_label (minimum t0 ts))
                       (week_label (maximum t0 ts))) as Hlabels.
  { unfold labels. rewrite (rows_resample_mean t0 ts Hts).
    by rewrite <-list_fmap_compose. }
  pose proof (minimum_spec t0 ts) as [Hmin1 Hmin2].
  pose proof (maximum_spec t0 ts) as [Hmax1 Hmax2].
  split; [|split; [|split; [|split; [|split]]]].
  - rewrite Hlabels. apply (NoDup_fmap_2 Timestamp), NoDup_week_range.
  - rewrite Hlabels. pose proof (week_range_head (week_label (minimum t0 ts))
      (week_label (maximum t0 ts))) as Hhead.
    destruct (week_range _ _) as [|L l]; by simplify_eq/=.
  - rewrite Hlabels, fmap_last, week_range_last; [done| |].
    + apply week_label_mono, Hmin2, Hmax1.
    + apply week_label_step.
  - intros i x y. rewrite Hlabels, !list_lookup_fmap, !fmap_Some.
    intros (Lx & [Hi ->]%week_range_lookup & ->).
    intros (Ly & [Hj ->]%week_range_lookup & ->).
    eexists. split; [done|]. split.
    + f_equal. unfold WEEK, NS_PER_DAY. lia.
    + eapply week_range_is_label; [apply week_label_is_label|].
      apply elem_of_week_range. eauto.
  - intros t Ht. rewrite Hlabels. apply list_elem_of_fmap_2.
    apply week_label_in_range. rewrite Hts in Ht. split; auto.
  - intros L cells (L' & HL & [= -> ->])%elem_of_rows_resample_mean Hempty.
    split; [by rewrite length_fmap|].
    apply Forall_fmap, Forall_forall. intros c _. simpl.
    rewrite bucket_values_bucket_rows, Hempty by done. done.
Qed.

End Resample_facts.

Lemma resample_mean_row_length (df : DataFrame (option Qc))
    (r : datetime64 * list (option Qc)) :
  r ∈ rows (resample_mean df) → length r.2 = length (columns (resample_mean df)).
Proof.
  intros (L & _ & ->)%elem_of_rows_resample_mean. simpl.
  by rewrite columns_resample_mean, length_fmap.
Qed.

Lemma resample_mean_not_empty (df : DataFrame (option Qc)) :
  timestamps df ≠ [] → rows (resample_mean df) ≠ [].
Proof.
  destruct (timestamps df) as [|t0 ts] eqn:Hts; [done|]. intros _.
  rewrite (rows_resample_mean df t0 ts Hts).
  pose proof (week_range_head (week_label (minimum t0 ts))
                              (week_label (maximum t0 ts))) as Hhead.
  by destruct (week_range _ _).
Qed.

(** ** The flag *)

Lemma add_Hazardous_Ok (wm : DataFrame (option Qc)) (out : DataFrame cell) :
  add_Hazardous wm = Ok out →
  "NOX" ∈ columns wm ∧
  columns out = assign_columns (columns wm) "Hazardous" ∧
  rows out =
    (λ r, (r.1, assign_cells (columns wm) (Float <$> r.2) "Hazardous"
                  (Bool (Hazardous (columns wm) r.2)))) <$> rows wm.
Proof.
  unfold add_Hazardous. case_decide; [|done]. by intros [= <-].
Qed.

(** The flag of a row of a frame whose rows have a cell for every
    column. *)
Lemma add_Hazardous_row (wm : DataFrame (option Qc)) (out : DataFrame cell)
    (i : nat) (lab : datetime64) (cells : list (option Qc)) :
  (∀ r, r ∈ rows wm → length r.2 = length (columns wm)) →
  add_Hazardous wm = Ok out →
  rows wm !! i = Some (lab, cells) →
  ∃ nox cells',
    get (columns wm) cells "NOX" = Some nox ∧
    rows out !! i = Some (lab, cells') ∧
    get (columns out) cells' "NOX" = Some (Float nox) ∧
    get (columns out) cells' "Hazardous" = Some (Bool (gt nox threshold)).
Proof.
  intros Hwf (Hnox & Hcols & Hrows)%add_Hazardous_Ok Hi.
  assert (length (columns wm) = length cells) as Hlen.
  { symmetry. apply (Hwf (lab, cells)). by eapply list_elem_of_lookup_2. }
  destruct (get_is_Some (columns wm) cells "NOX" Hlen Hnox) as [nox Hget].
  exists nox. eexists. split; [done|]. split; [|split].
  - by rewrite Hrows, list_lookup_fmap, Hi.
  - simpl. rewrite Hcols, get_assign_ne, get_fmap_cells, Hget; try done.
    by rewrite length_fmap.
  - simpl. rewrite Hcols, get_assign_eq by (by rewrite length_fmap).
    unfold Hazardous. by rewrite Hget.
Qed.

Section Flag_facts.

Variable to_datetime : string → option datetime64.

Lemma weekly_mean_Ok (df : list (reading (option string)))
    (wm : DataFrame (option Qc)) :
  weekly_mean to_datetime df = Ok wm →
  ∃ wide, pivoted to_datetime df = Ok wide ∧ wm = resample_mean wide.
Proof.
  unfold weekly_mean.
  destruct (pivoted to_datetime df) as [wide|]; [|done].
  intros [= <-]. by exists wide.
Qed.

Lemma flagged_Ok (df : list (reading (option string)))
    (out : DataFrame cell) :
  flagged to_datetime df = Ok out →
  ∃ wide, pivoted to_datetime df = Ok wide ∧
          add_Hazardous (resample_mean wide) = Ok out.
Proof.
  unfold flagged, weekly_mean.
  destruct (pivoted to_datetime df) as [wide|]; [|done].
  intros Hout. by exists wide.
Qed.

(** C10. A weekly bucket with no NOX reading is never flagged: when no
    row of the Wide Table that falls in the bucket has a NOX value, the
    NOX mean of the bucket is missing; and whenever the NOX mean of a
    row of the Resampled Table is missing, its flag [Hazardous] is
    [False]. *)
Theorem missing_NOX_not_Hazardous (df : list (reading (option string)))
    (wide : DataFrame (option Qc)) (out : DataFrame cell) :
  pivoted to_datetime df = Ok wide →
  flagged to_datetime df = Ok out →
  ∀ i L cells, rows (resample_mean wide) !! i = Some (Timestamp L, cells) →
    ((∀ r, r ∈ bucket_rows wide L →
           mjoin (get (columns wide) r.2 "NOX") = None) →
     get (columns (resample_mean wide)) cells "NOX" = Some None) ∧
    (get (columns (resample_mean wide)) cells "NOX" = Some None →
     ∃ cells', rows out !! i = Some (Timestamp L, cells') ∧
               get (columns out) cells' "NOX" = Some (Float None) ∧
               get (columns out) cells' "Hazardous" = Some (Bool false)).
Proof.
  intros Hwide (wide' & Hwide' & Hflag)%flagged_Ok i L cells Hi.
  assert (wide' = wide) as -> by congruence.
  destruct (add_Hazardous_row _ _ i _ _
              (resample_mean_row_length wide) Hflag Hi)
    as (nox & cells' & Hnox & Hout & HoutN & HoutH).
  split.
  - intros Hnone.
    apply list_elem_of_lookup_2 in Hi.
    assert ("NOX" ∈ columns wide) as Hcol.
    { rewrite <-(columns_resample_mean wide).
      by apply add_Hazardous_Ok in Hflag as [? _]. }
    destruct (resample_mean_cell wide L cells "NOX" Hi Hcol) as [_ Hcell].
    rewrite Hcell. do 2 f_equal. apply mean_None. clear Hcell. revert Hnone.
    generalize (bucket_rows wide L). intros l Hnone.
    induction l as [|r l IH]; [done|].
    rewrite omap_cons_match, (Hnone r) by (by left).
    apply IH. intros r' ?. apply Hnone. by right.
  - intros Hmiss. exists cells'. rewrite Hnox in Hmiss. by simplify_eq.
Qed.

End Flag_facts.

(** ** Time stamps are never missing *)

Section Timestamp_facts.

Variable to_datetime : string → option datetime64.

Lemma complete_inv (r : reading (option string)) :
  complete r = true →
  ∃ s c v, ReadingDateTime r = Some s ∧ Species r = Some c ∧
           Value r = Some v.
Proof.
  unfold complete. destruct r as [[s|] [c|] [v|] oth]; simpl; try done.
  intros _. by exists s, c, v.
Qed.

Lemma pivot_table_no_NaT (indexed : list (datetime64 * reading ())) :
  ∀ r, r ∈ rows (pivot_table indexed) → r.1 ≠ NaT.
Proof.
  intros r. rewrite rows_pivot_table.
  by intros (t & -> & _)%list_elem_of_fmap.
Qed.

Lemma timestamps_pivot_table_not_empty
    (indexed : list (datetime64 * reading ())) :
  observations indexed ≠ [] → timestamps (pivot_table indexed) ≠ [].
Proof.
  intros Hobs. rewrite timestamps_pivot_table.
  destruct (observations indexed) as [|[[t c] v] obs] eqn:Ho; [done|].
  intros Hnil.
  assert (t ∈ sort_unique Z.le (((t, c, v) :: obs).*1.*1)) as Ht.
  { apply (elem_of_sort_unique _). by left. }
  rewrite Hnil in Ht. by apply elem_of_nil in Ht.
Qed.

(** The table that is written out has a row as soon as it exists: a
    NOX column means a NOX reading with a time stamp. *)
Lemma flagged_not_empty (df : list (reading (option string)))
    (out : DataFrame cell) :
  flagged to_datetime df = Ok out → rows out ≠ [].
Proof.
  intros (wide & (indexed & _ & _ & ->)%pivoted_Ok & Hflag)%flagged_Ok.
  apply add_Hazardous_Ok in Hflag as (Hnox & _ & ->).
  rewrite columns_resample_mean in Hnox.
  apply elem_of_columns_pivot_table in Hnox as (t & v & Hobs).
  intros Hnil%fmap_nil_inv. revert Hnil. apply resample_mean_not_empty.
  apply timestamps_pivot_table_not_empty. intros Hobs'.
  rewrite Hobs' in Hobs. by apply elem_of_nil in Hobs.
Qed.

(** C8. For an input table with at least one fully-populated record,
    the output has no row with a missing time stamp: some record
    survives [dropna], every record that survives has its
    [ReadingDateTime]; no row of the Wide Table is indexed by [NaT]; and
    the table that is written out has at least one row and no row
    indexed by [NaT]. *)
Theorem no_missing_timestamp (df : list (reading (option string))) :
  (∃ r, r ∈ df ∧ complete r = true) →
  dropna df ≠ [] ∧
  (∀ r, r ∈ dropna df → is_Some (ReadingDateTime r)) ∧
  (∀ wide, pivoted to_datetime df = Ok wide →
     ∀ r, r ∈ rows wide → r.1 ≠ NaT) ∧
  (∀ out, flagged to_datetime df = Ok out →
     rows out ≠ [] ∧ ∀ r, r ∈ rows out → r.1 ≠ NaT).
Proof.
  intros (r0 & Hr0 & Hc0). split; [|split; [|split]].
  - intros Hnil. assert (r0 ∈ dropna df) as Hin by (by apply elem_of_dropna).
    rewrite Hnil in Hin. by apply elem_of_nil in Hin.
  - intros r [_ Hr]%elem_of_dropna.
    apply complete_inv in Hr as (s & _ & _ & -> & _). by eexists.
  - intros wide (indexed & _ & _ & ->)%pivoted_Ok.
    apply pivot_table_no_NaT.
  - intros out Hout. split; [by eapply flagged_not_empty|].
    apply flagged_Ok in Hout as (wide & _ & Hflag).
    apply add_Hazardous_Ok in Hflag as (_ & _ & ->).
    intros r (r' & -> & Hr')%list_elem_of_fmap. simpl.
    by apply elem_of_rows_resample_mean in Hr' as (L & _ & ->).
Qed.

End Timestamp_facts.

(** ** The example: two times in one week *)

Lemma week_range_single (L : Z) : week_range L L = [L].
Proof. unfold week_range. rewrite Z.sub_diag. simpl. f_equal. lia. Qed.

Lemma bucket_values_cons (cols : list string) (t : Z)
    (cells : list (option Qc)) (rest : list (datetime64 * list (option Qc)))
    (L : Z) (c : string) :
  week_label t = L →
  bucket_values (Frame cols ((Timestamp t, cells) :: rest)) L c =
    match mjoin (get cols cells c) with
    | Some v => v :: bucket_values (Frame cols rest) L c
    | None => bucket_values (Frame cols rest) L c
    end.
Proof.
  intros Ht. unfold bucket_values. cbn [rows columns].
  rewrite omap_cons_match. cbn [fst snd]. by rewrite decide_True.
Qed.

(** The weekly mean of a frame of one or two rows of the same week. *)
Lemma resample_mean_one_row (t : Z) (a1 a2 : Qc) :
  resample_mean (Frame ["NOX"; "PM10"] [(Timestamp t, [Some a1; Some a2])]) =
    Frame ["NOX"; "PM10"] [(Timestamp (week_label t), [mean [a1]; mean [a2]])].
Proof.
  unfold resample_mean. cbn [timestamps rows columns omap list_omap fst].
  change (minimum t []) with t. change (maximum t []) with t.
  rewrite week_range_single. cbn [fmap list_fmap].
  by rewrite !bucket_values_cons.
Qed.

Lemma resample_mean_two_rows (ta tb : Z) (a1 a2 b1 b2 : Qc) :
  week_label ta = week_label tb →
  resample_mean (Frame ["NOX"; "PM10"]
                   [(Timestamp ta, [Some a1; Some a2]);
                    (Timestamp tb, [Some b1; Some b2])]) =
    Frame ["NOX"; "PM10"]
      [(Timestamp (week_label ta), [mean [a1; b1]; mean [a2; b2]])].
Proof.
  intros Hweek.
  unfold resample_mean. cbn [timestamps rows columns omap list_omap fst].
  assert (week_label (minimum ta [tb]) = week_label ta) as ->.
  { unfold minimum. simpl.
    destruct (Z.min_spec tb ta) as [[_ ->]|[_ ->]]; done. }
  assert (week_label (maximum ta [tb]) = week_label ta) as ->.
  { unfold maximum. simpl.
    destruct (Z.max_spec tb ta) as [[_ ->]|[_ ->]]; done. }
  rewrite week_range_single. cbn [fmap list_fmap].
  by rewrite !bucket_values_cons.
Qed.

Lemma mean_40_60 : mean [Qc_of_Z 40; Qc_of_Z 60] = Some (Qc_of_Z 50).
Proof. compute_done. Qed.
Lemma mean_60_40 : mean [Qc_of_Z 60; Qc_of_Z 40] = Some (Qc_of_Z 50).
Proof. compute_done. Qed.
Lemma mean_10_12 : mean [Qc_of_Z 10; Qc_of_Z 12] = Some (Qc_of_Z 11).
Proof. compute_done. Qed.
Lemma mean_12_10 : mean [Qc_of_Z 12; Qc_of_Z 10] = Some (Qc_of_Z 11).
Proof. compute_done. Qed.

Lemma mean_singleton (v : Qc) : mean [v] = Some v.
Proof. apply mean_constant; [done|]. by repeat constructor. Qed.

Ltac eval_group :=
  unfold group, example_triples;
  repeat (rewrite filter_cons;
          destruct (decide _); simplify_eq/=; try lia);
  rewrite ?filter_nil; simpl.

Lemma example_index (t1 t2 : Z) (l : list Z) :
  StronglySorted Z.le l → NoDup l → (∀ x, x ∈ l ↔ x = t1 ∨ x = t2) →
  sort_unique Z.le ((example_triples t1 t2).*1.*1) = l.
Proof.
  intros Hs Hn Hl. rewrite <-(sort_unique_id Z.le l) by done.
  apply (sort_unique_ext _). intros x. rewrite Hl. simpl.
  rewrite !elem_of_cons, elem_of_nil. tauto.
Qed.

(** The Wide Table of the example, by the order of the two times. *)
Lemma example_pivot_lt (t1 t2 : Z) (indexed : list (datetime64 * reading ())) :
  t1 < t2 → observations indexed = example_triples t1 t2 →
  pivot_table indexed =
    Frame ["NOX"; "PM10"]
      [(Timestamp t1, [Some (Qc_of_Z 40); Some (Qc_of_Z 10)]);
       (Timestamp t2, [Some (Qc_of_Z 60); Some (Qc_of_Z 12)])].
Proof.
  intros Hlt Hobs. unfold pivot_table. rewrite Hobs.
  change (sort_unique string_le ((example_triples t1 t2).*1.*2))
    with ["NOX"; "PM10"].
  rewrite (example_index t1 t2 [t1; t2]).
  - cbn [fmap list_fmap].
    assert (group (example_triples t1 t2) t1 "NOX" = [Qc_of_Z 40]) as ->
      by (by eval_group).
    assert (group (example_triples t1 t2) t1 "PM10" = [Qc_of_Z 10]) as ->
      by (by eval_group).
    assert (group (example_triples t1 t2) t2 "NOX" = [Qc_of_Z 60]) as ->
      by (by eval_group).
    assert (group (example_triples t1 t2) t2 "PM10" = [Qc_of_Z 12]) as ->
      by (by eval_group).
    by rewrite !mean_singleton.
  - repeat constructor; lia.
  - apply NoDup_cons. split; [|apply NoDup_singleton].
    intros ->%list_elem_of_singleton. lia.
  - intros x. rewrite !elem_of_cons, elem_of_nil. tauto.
Qed.

Lemma example_pivot_gt (t1 t2 : Z) (indexed : list (datetime64 * reading ())) :
  t2 < t1 → observations indexed = example_triples t1 t2 →
  pivot_table indexed =
    Frame ["NOX"; "PM10"]
      [(Timestamp t2, [Some (Qc_of_Z 60); Some (Qc_of_Z 12)]);
       (Timestamp t1, [Some (Qc_of_Z 40); Some (Qc_of_Z 10)])].
Proof.
  intros Hlt Hobs. unfold pivot_table. rewrite Hobs.
  change (sort_unique string_le ((example_triples t1 t2).*1.*2))
    with ["NOX"; "PM10"].
  rewrite (example_index t1 t2 [t2; t1]).
  - cbn [fmap list_fmap].
    assert (group (example_triples t1 t2) t1 "NOX" = [Qc_of_Z 40]) as ->
      by (by eval_group).
    assert (group (example_triples t1 t2) t1 "PM10" = [Qc_of_Z 10]) as ->
      by (by eval_group).
    assert (group (example_triples t1 t2) t2 "NOX" = [Qc_of_Z 60]) as ->
      by (by eval_group).
    assert (group (example_triples t1 t2) t2 "PM10" = [Qc_of_Z 12]) as ->
      by (by eval_group).
    by rewrite !mean_singleton.
  - repeat constructor; lia.
  - apply NoDup_cons. split; [|apply NoDup_singleton].
    intros ->%list_elem_of_singleton. lia.
  - intros x. rewrite !elem_of_cons, elem_of_nil. tauto.
Qed.

Lemma example_pivot_eq (t : Z) (indexed : list (datetime64 * reading ())) :
  observations indexed = example_triples t t →
  pivot_table indexed =
    Frame ["NOX"; "PM10"]
      [(Timestamp t, [Some (Qc_of_Z 50); Some (Qc_of_Z 11)])].
Proof.
  intros Hobs. unfold pivot_table. rewrite Hobs.
  change (sort_unique string_le ((example_triples t t).*1.*2))
    with ["NOX"; "PM10"].
  rewrite (example_index t t [t]).
  - cbn [fmap list_fmap].
    assert (group (example_triples t t) t "NOX"
            = [Qc_of_Z 40; Qc_of_Z 60]) as -> by (by eval_group).
    assert (group (example_triples t t) t "PM10"
            = [Qc_of_Z 10; Qc_of_Z 12]) as -> by (by eval_group).
    by rewrite mean_40_60, mean_10_12.
  - repeat constructor.
  - apply NoDup_singleton.
  - intros x. rewrite list_elem_of_singleton. tauto.
Qed.

Section Example.

Variable to_datetime : string → option datetime64.
Variables (s1 s2 : string) (t1 t2 : Z).
Hypothesis Hs1 : to_datetime s1 = Some (Timestamp t1).
Hypothesis Hs2 : to_datetime s2 = Some (Timestamp t2).
Hypothesis Hweek : week_label t1 = week_label t2.

Lemma example_cleaned :
  ∃ indexed, cleaned to_datetime (example_rows s1 s2) = Ok indexed ∧
             observations indexed = example_triples t1 t2.
Proof.
  eexists. split.
  - unfold cleaned.
    change (dropna (example_rows s1 s2)) with (example_rows s1 s2).
    unfold example_rows. rewrite !astype_cons. simpl.
    rewrite Hs1, Hs2. simpl. reflexivity.
  - reflexivity.
Qed.

Lemma example_weekly_mean (indexed : list (datetime64 * reading ())) :
  observations indexed = example_triples t1 t2 →
  resample_mean (pivot_table indexed) =
    Frame ["NOX"; "PM10"]
      [(Timestamp (week_label t1), [Some (Qc_of_Z 50); Some (Qc_of_Z 11)])].
Proof.
  intros Hobs. destruct (Z.lt_total t1 t2) as [Hlt|[Heq|Hgt]].
  - rewrite (example_pivot_lt t1 t2) by done.
    rewrite resample_mean_two_rows by done.
    by rewrite mean_40_60, mean_10_12.
  - rewrite <-Heq in Hobs. rewrite (example_pivot_eq t1) by done.
    by rewrite resample_mean_one_row, !mean_singleton.
  - rewrite (example_pivot_gt t1 t2) by done.
    rewrite resample_mean_two_rows by done.
    by rewrite mean_60_40, mean_12_10, Hweek.
Qed.

Lemma example_flagged :
  flagged to_datetime (example_rows s1 s2) =
    Ok (Frame ["NOX"; "PM10"; "Hazardous"]
          [(Timestamp (week_label t1),
            [Float (Some (Qc_of_Z 50)); Float (Some (Qc_of_Z 11));
             Bool false])]).
Proof.
  destruct example_cleaned as (indexed & Hcl & Hobs).
  unfold flagged, weekly_mean, pivoted. rewrite Hcl. simpl.
  rewrite (example_weekly_mean indexed Hobs). reflexivity.
Qed.

End Example.

(** ** The flag against the threshold *)

Lemma gt_true_iff (x : option Qc) (c : Qc) :
  gt x c = true ↔ ∃ v, x = Some v ∧ (c < v)%Qc.
Proof.
  destruct x as [v|]; simpl.
  - rewrite bool_decide_eq_true. split; [by exists v|].
    by intros (v' & [= <-] & ?).
  - split; [done|]. by intros (v & ? & _).
Qed.

Section Hazardous_facts.

Variable to_datetime : string → option datetime64.

(** C2. In every row of the Resampled Table the flag [Hazardous] is the
    comparison [NOX > 50] of the NOX mean of the row: it is [True]
    exactly when the mean is present and greater than 50, so a mean
    equal to 50 gives [False]. In particular, for the four records
    (t1, NOX, 40), (t1, PM10, 10), (t2, NOX, 60), (t2, PM10, 12) with
    [t1] and [t2] in one weekly bucket, the table has the single row
    NOX = 50, PM10 = 11, Hazardous = False. *)
Theorem Hazardous_is_NOX_above_50 :
  (∀ df wm out,
     weekly_mean to_datetime df = Ok wm →
     flagged to_datetime df = Ok out →
     length (rows out) = length (rows wm) ∧
     ∀ i lab cells, rows wm !! i = Some (lab, cells) →
       ∃ nox cells',
         get (columns wm) cells "NOX" = Some nox ∧
         rows out !! i = Some (lab, cells') ∧
         get (columns out) cells' "NOX" = Some (Float nox) ∧
         get (columns out) cells' "Hazardous"
           = Some (Bool (gt nox (Qc_of_Z 50))) ∧
         (gt nox (Qc_of_Z 50) = true ↔
            ∃ v, nox = Some v ∧ (Qc_of_Z 50 < v)%Qc)) ∧
  gt (Some (Qc_of_Z 50)) (Qc_of_Z 50) = false ∧
  (∀ s1 s2 t1 t2,
     to_datetime s1 = Some (Timestamp t1) →
     to_datetime s2 = Some (Timestamp t2) →
     week_label t1 = week_label t2 →
     flagged to_datetime (example_rows s1 s2) =
       Ok (Frame ["NOX"; "PM10"; "Hazardous"]
             [(Timestamp (week_label t1),
               [Float (Some (Qc_of_Z 50)); Float (Some (Qc_of_Z 11));
                Bool false])])).
Proof.
  split; [|split].
  - intros df wm out (wide & Hwide & ->)%weekly_mean_Ok
                     (wide' & Hwide' & Hflag)%flagged_Ok.
    assert (wide' = wide) as -> by congruence. split.
    + apply add_Hazardous_Ok in Hflag as (_ & _ & ->).
      by rewrite length_fmap.
    + intros i lab cells Hi.
      destruct (add_Hazardous_row _ _ i _ _
                  (resample_mean_row_length wide) Hflag Hi)
        as (nox & cells' & Hnox & Hout & HoutN & HoutH).
      exists nox, cells'. repeat (split; [done|]). apply gt_true_iff.
  - compute_done.
  - intros s1 s2 t1 t2. apply example_flagged.
Qed.

End Hazardous_facts.

(** ** The function and the cells *)

(** What the cells of the notebook return and write when they run to the
    end: the path [output_folder / 'WeeklyMeanAQ.csv'], which then holds
    the flagged weekly means. *)
Lemma notebook_output_filepath (to_datetime : string → option datetime64)
    (fs fs' : filesystem) (filepath output_folder output_filepath : Path) :
  notebook to_datetime fs filepath output_folder = Ok (fs', output_filepath) →
  output_filepath = joinpath output_folder "WeeklyMeanAQ.csv" ∧
  ∃ df weekly, read_csv fs filepath = Ok df ∧
               flagged to_datetime df = Ok weekly ∧
               files fs' !! output_filepath = Some (Written weekly).
Proof.
  unfold notebook.
  destruct (read_csv fs filepath) as [df|] eqn:Hread; [|done]. simpl.
  destruct (flagged to_datetime df) as [weekly|] eqn:Hflag; [|done]. simpl.
  unfold to_csv. case_decide; [|done]. simpl. intros [= <- <-].
  split; [done|]. exists df, weekly. split; [done|]. split; [done|].
  simpl. apply lookup_insert_eq.
Qed.

(** C1 (the code). [process_csv_file] writes no file and returns [None],
    whatever its arguments: it does not return the path
    [output_folder / 'WeeklyMeanAQ.csv']. On the files of the notebook,
    the cells that the function was to wrap do return that path. *)
Theorem process_csv_file_returns_None :
  (∀ fs filepath output_folder fill_with,
     process_csv_file fs filepath output_folder fill_with = (fs, None) ∧
     (process_csv_file fs filepath output_folder fill_with).2
       ≠ Some (joinpath output_folder "WeeklyMeanAQ.csv")) ∧
  (process_csv_file sample_files data_filepath another_processed_data_folder
                    (FillStr " ")).2 = None ∧
  ∃ fs', notebook parse_datetime sample_files data_filepath
                  another_processed_data_folder
    = Ok (fs', [".."; "data"; "another_processed_data_folder";
                "WeeklyMeanAQ.csv"]).
Proof.
  split; [|split].
  - intros fs filepath output_folder fill_with. by split.
  - done.
  - destruct (notebook parse_datetime sample_files data_filepath
                another_processed_data_folder) as [[fs' p]|e] eqn:Hrun.
    + exists fs'. by apply notebook_output_filepath in Hrun as [-> _].
    + exfalso. revert Hrun. unfold notebook.
      assert (read_csv sample_files data_filepath = Ok one_week) as ->
        by compute_done.
      cbn [mbind result_bind].
      assert (∃ weekly, flagged parse_datetime one_week = Ok weekly)
        as [weekly ->] by (eexists; vm_compute; reflexivity).
      intros Hrun. vm_compute in Hrun. discriminate.
Qed.

(** ** The theorems on the sample tables *)

Lemma pivoted_three_weeks :
  pivoted parse_datetime three_weeks = Ok three_weeks_wide.
Proof. compute_done. Qed.

Lemma flagged_three_weeks :
  flagged parse_datetime three_weeks = Ok three_weeks_out.
Proof. compute_done. Qed.





Lemma resample_one_row_per_week_witness :
  (rows (resample_mean three_weeks_wide)).*1
    = [Timestamp Sun_07; Timestamp Sun_14; Timestamp Sun_21] ∧
  NoDup ((rows (resample_mean three_weeks_wide)).*1) ∧
  Forall (λ x : option Qc, x = None) [None; None].
Proof.
  pose proof (resample_one_row_per_week three_weeks_wide Mon_01
                [Thu_04_09h; Sun_21_13h] eq_refl)
    as (Hnodup & _ & _ & _ & _ & Hempty).
  split; [compute_done|]. split; [done|].
  apply (Hempty Sun_14); compute_done.
Defined.

Lemma no_missing_timestamp_witness :
  rows three_weeks_out ≠ [] ∧ ∀ r, r ∈ rows three_weeks_out → r.1 ≠ NaT.
Proof.
  assert (∃ r, r ∈ three_weeks ∧ complete r = true) as Hfull.
  { exists (sample "2018-01-01 00:00:00" "NOX" 70). split; compute_done. }
  destruct (no_missing_timestamp parse_datetime three_weeks Hfull)
    as (_ & _ & _ & Hout).
  apply Hout. compute_done.
Defined.


Lemma missing_NOX_not_Hazardous_witness :
  ∃ cells', rows three_weeks_out !! 1%nat = Some (Timestamp Sun_14, cells') ∧
            get (columns three_weeks_out) cells' "NOX" = Some (Float None) ∧
            get (columns three_weeks_out) cells' "Hazardous"
              = Some (Bool false).
Proof.
  destruct (missing_NOX_not_Hazardous parse_datetime three_weeks
              three_weeks_wide three_weeks_out pivoted_three_weeks
              flagged_three_weeks 1%nat Sun_14 [None; None])
    as [Hmissing Hflag]; [compute_done|].
  apply Hflag, Hmissing.
  assert (bucket_rows three_weeks_wide Sun_14 = []) as -> by compute_done.
  by intros r ?%elem_of_nil.
Defined.

Lemma Hazardous_is_NOX_above_50_witness :
  flagged parse_datetime
    (example_rows "2018-01-01 00:00:00" "2018-01-02 00:00:00") =
  Ok (Frame ["NOX"; "PM10"; "Hazardous"]
        [(Timestamp Sun_07,
          [Float (Some (Qc_of_Z 50)); Float (Some (Qc_of_Z 11));
           Bool false])]) ∧
  ∃ cells', rows three_weeks_out !! 0%nat = Some (Timestamp Sun_07, cells') ∧
            get (columns three_weeks_out) cells' "Hazardous"
              = Some (Bool (gt (Some (Qc_of_Z 60)) (Qc_of_Z 50))).
Proof.
  destruct (Hazardous_is_NOX_above_50 parse_datetime)
    as (Hrows & _ & Hexample).
  split.
  - apply (Hexample _ _ Mon_01 Tue_02); compute_done.
  - destruct (Hrows three_weeks (resample_mean three_weeks_wide)
                three_weeks_out) as [_ Hrow]; [compute_done..|].
    destruct (Hrow 0%nat (Timestamp Sun_07) [Some (Qc_of_Z 60); None])
      as (nox & cells' & Hnox & Hout & _ & Hflag & _); [compute_done|].
    exists cells'. split; [done|].
    assert (nox = Some (Qc_of_Z 60)) as <-; [|done].
    revert Hnox. assert (get (columns (resample_mean three_weeks_wide))
                           [Some (Qc_of_Z 60); None] "NOX"
                         = Some (Some (Qc_of_Z 60))) as -> by compute_done.
    by intros [= <-].
Defined.

(** * Further properties of the workflow *)

(** ** Bounds on the mean *)

Lemma Qc_of_nat_S_pos (n : nat) : (0 < Qc_of_nat (S n))%Qc.
Proof.
  unfold Qc_of_nat. rewrite <-Z2Qc_inj_0. apply (proj1 (Z2Qc_inj_lt _ _)). lia.
Qed.

Lemma sum_le_all (c : Qc) (l : list Qc) :
  Forall (λ x, (x ≤ c)%Qc) l → (sum l ≤ Qc_of_nat (length l) * c)%Qc.
Proof.
  induction 1 as [|x l Hx _ IH].
  - change (Qc_of_nat (length [])) with (Qc_of_Z 0).
    rewrite Z2Qc_inj_0, Qcmult_0_l. apply Qcle_refl.
  - change (sum (x :: l)) with (x + sum l)%Qc.
    change (length (x :: l)) with (S (length l)).
    rewrite Qc_of_nat_S, Qcmult_plus_distr_l, Qcmult_1_l.
    by apply Qcplus_le_compat.
Qed.


Lemma mean_le_all (c m : Qc) (l : list Qc) :
  mean l = Some m → Forall (λ x, (x ≤ c)%Qc) l → (m ≤ c)%Qc.
Proof.
  destruct l as [|x l]; [done|]. intros [= <-] Hall%sum_le_all.
  apply (Qcmult_lt_0_le_reg_r _ _ (Qc_of_nat (length (x :: l)))).
  - apply Qc_of_nat_S_pos.
  - rewrite test_field by apply Qc_of_nat_S_ne_0.
    by rewrite (Qcmult_comm c).
Qed.


(** A mean above [c] has a value above [c] behind it. *)
Lemma mean_gt_exists (c m : Qc) (l : list Qc) :
  mean l = Some m → (c < m)%Qc → ∃ x, x ∈ l ∧ (c < x)%Qc.
Proof.
  intros Hm Hlt.
  destruct (decide (Exists (λ x, (c < x)%Qc) l)) as [Hex|Hno].
  - by apply Exists_exists in Hex.
  - apply not_Exists_Forall in Hno; [|apply _].
    exfalso. apply (Qclt_not_le _ _ Hlt). eapply mean_le_all; [done|].
    eapply Forall_impl; [done|]. intros x Hx. simpl in Hx.
    by apply Qcnot_lt_le.
Qed.

(** ** Where a weekly mean comes from *)

Lemma elem_of_bucket_values (df : DataFrame (option Qc)) (L : Z)
    (c : string) (x : Qc) :
  x ∈ bucket_values df L c ↔
  ∃ t cells, (Timestamp t, cells) ∈ rows df ∧ week_label t = L ∧
             get (columns df) cells c = Some (Some x).
Proof.
  unfold bucket_values. rewrite list_elem_of_omap. split.
  - intros ([[|t] cells] & Hin & Hx); simpl in Hx; [done|].
    case_decide as HL; [|done]. exists t, cells. repeat (split; [done|]).
    by destruct (get (columns df) cells c) as [[?|]|]; simplify_eq/=.
  - intros (t & cells & Hin & HL & Hget). exists (Timestamp t, cells).
    split; [done|]. simpl. rewrite decide_True by done. by rewrite Hget.
Qed.

Lemma elem_of_rows_pivot_table (df : list (datetime64 * reading ()))
    (t : Z) (cells : list (option Qc)) :
  (Timestamp t, cells) ∈ rows (pivot_table df) ↔
  (∃ c v, (t, c, v) ∈ observations df) ∧
  cells = (λ c, mean (group (observations df) t c))
            <$> columns (pivot_table df).
Proof.
  rewrite rows_pivot_table, list_elem_of_fmap. split.
  - intros (t' & [= <- ->] & Ht). split; [|done].
    by apply elem_of_index_pivot_table.
  - intros [Ht ->]. exists t. split; [done|].
    by apply elem_of_index_pivot_table.
Qed.

Lemma get_Some_elem_of {C} (cols : list string) (cells : list C)
    (c : string) (x : C) :
  get cols cells c = Some x → c ∈ cols.
Proof.
  intros Hget. destruct (decide (c ∈ cols)) as [|Hno]; [done|].
  by rewrite get_not_elem_of in Hget.
Qed.

(** A weekly mean is the mean of cells of the Wide Table of that week,
    and each of these is the mean of readings of its pair. *)
Lemma weekly_cell_sources (df : list (datetime64 * reading ())) (L : Z)
    (cells : list (option Qc)) (c : string) (m : Qc) :
  (Timestamp L, cells) ∈ rows (resample_mean (pivot_table df)) →
  get (columns (pivot_table df)) cells c = Some (Some m) →
  ∃ l, mean l = Some m ∧
       ∀ x, x ∈ l →
         ∃ t, week_label t = L ∧
              mean (group (observations df) t c) = Some x.
Proof.
  intros Hrow Hget. pose proof (get_Some_elem_of _ _ _ _ Hget) as Hc.
  apply elem_of_rows_resample_mean in Hrow as (L' & _ & [= <- ->]).
  rewrite (get_fmap_cols (λ c, mean (bucket_values (pivot_table df) L c)))
    in Hget by done.
  exists (bucket_values (pivot_table df) L c). split; [by simplify_eq|].
  intros x (t & cells & [_ ->]%elem_of_rows_pivot_table & HL & Hx)
           %elem_of_bucket_values.
  exists t. split; [done|].
  rewrite (get_fmap_cols (λ c, mean (group (observations df) t c))) in Hx
    by done.
  by simplify_eq.
Qed.

Section Bounds.

Variable to_datetime : string → option datetime64.



(** X11. A row is flagged only when some surviving NOX reading of its week
    is above 50. *)
Theorem Hazardous_has_reading_above_50 (df : list (reading (option string)))
    (out : DataFrame cell) (L : Z) (cells' : list cell) :
  flagged to_datetime df = Ok out →
  (Timestamp L, cells') ∈ rows out →
  get (columns out) cells' "Hazardous" = Some (Bool true) →
  ∃ t v, (t, "NOX", v) ∈ triples to_datetime df ∧ week_label t = L ∧
         (Qc_of_Z 50 < v)%Qc.
Proof.
  intros (wide & (indexed & _ & Hobs & ->)%pivoted_Ok & Hflag)%flagged_Ok.
  pose proof Hflag as (Hnox & Hcols & Hrows)%add_Hazardous_Ok.
  rewrite Hrows. intros ([lab cells] & [= <- ->] & Hrow)%list_elem_of_fmap.
  simpl in *. rewrite Hcols, get_assign_eq.
  2:{ rewrite length_fmap. symmetry.
      apply (resample_mean_row_length _ _ Hrow). }
  intros [= Hhaz]. unfold Hazardous in Hhaz.
  apply gt_true_iff in Hhaz as (m & Hget & Hm).
  assert (get (columns (pivot_table indexed)) cells "NOX" = Some (Some m))
    as Hget'.
  { rewrite columns_resample_mean in Hget.
    by destruct (get _ cells "NOX") as [[?|]|]; simplify_eq/=. }
  destruct (weekly_cell_sources _ _ _ _ _ Hrow Hget') as (l & Hl & Hsrc).
  destruct (mean_gt_exists _ _ _ Hl Hm) as (x & Hx & Hxlt).
  destruct (Hsrc x Hx) as (t & HL & Hg).
  destruct (mean_gt_exists _ _ _ Hg Hxlt) as (v & Hv & Hvlt).
  exists t, v. split; [|done]. rewrite <-Hobs. by apply elem_of_group.
Qed.

End Bounds.

(** ** Without repeated pairs *)






Lemma astype_Raise_inv (to_datetime : string → option datetime64)
    (df : list (reading (option string))) (e : exception) :
  astype to_datetime df = Raise e →
  ∃ r s, r ∈ df ∧ ReadingDateTime r = Some s ∧ to_datetime s = None.
Proof.
  induction df as [|r df IH]; [done|]. rewrite astype_cons.
  destruct (astype_cell to_datetime (ReadingDateTime r)) as [t|e'] eqn:Hc.
  - destruct (astype to_datetime df) as [rest|e'']; [done|]. intros [= ->].
    destruct (IH eq_refl) as (r' & s & Hin & Hs & Hno).
    exists r', s. split; [by right|done].
  - intros _. unfold astype_cell in Hc.
    destruct (ReadingDateTime r) as [s|] eqn:Hs; [|done].
    destruct (to_datetime s) eqn:Hno; [done|].
    exists r, s. split; [by left|done].
Qed.

Lemma astype_bad_date (to_datetime : string → option datetime64)
    (df : list (reading (option string))) (r : reading (option string))
    (s : string) :
  r ∈ df → ReadingDateTime r = Some s → to_datetime s = None →
  astype to_datetime df = Raise ValueError.
Proof.
  intros Hin Hs Hno. induction df as [|r' df IH].
  - by apply elem_of_nil in Hin.
  - rewrite astype_cons. apply elem_of_cons in Hin as [<-|Hin].
    + unfold astype_cell. by rewrite Hs, Hno.
    + rewrite (IH Hin).
      destruct (astype_cell to_datetime (ReadingDateTime r')) as [t|e] eqn:Hc;
        [done|].
      by apply astype_cell_Raise in Hc as ->.
Qed.

Lemma astype_Forall2 (to_datetime : string → option datetime64)
    (df : list (reading (option string)))
    (typed : list (reading datetime64)) :
  astype to_datetime df = Ok typed →
  Forall2 (λ r r', astype_cell to_datetime (ReadingDateTime r)
                     = Ok (ReadingDateTime r') ∧
                   Species r' = Species r ∧ Value r' = Value r ∧
                   other_columns r' = other_columns r) df typed.
Proof.
  revert typed. induction df as [|r df IH]; intros typed.
  - intros [= <-]. constructor.
  - rewrite astype_cons.
    destruct (astype_cell to_datetime (ReadingDateTime r)) as [t|] eqn:Hc;
      [|done].
    destruct (astype to_datetime df) as [rest|]; [|done]. intros [= <-].
    constructor; [done|]. by apply IH.
Qed.

Section Errors.

Variable to_datetime : string → option datetime64.

(** X1. The date strings are converted after the incomplete records are
    dropped: the workflow raises [ValueError] when a fully-populated
    record has a string that is no date, and the conversion succeeds
    otherwise, whatever the incomplete records hold. *)
Theorem ValueError_iff_bad_date (df : list (reading (option string))) :
  ((∃ r s, r ∈ df ∧ complete r = true ∧ ReadingDateTime r = Some s ∧
           to_datetime s = None) →
   cleaned to_datetime df = Raise ValueError ∧
   flagged to_datetime df = Raise ValueError) ∧
  ((¬ ∃ r s, r ∈ df ∧ complete r = true ∧ ReadingDateTime r = Some s ∧
             to_datetime s = None) →
   ∃ indexed, cleaned to_datetime df = Ok indexed).
Proof.
  split.
  - intros (r & s & Hin & Hc & Hs & Hno).
    assert (astype to_datetime (dropna df) = Raise ValueError) as Ha.
    { eapply astype_bad_date; [|done..]. by apply elem_of_dropna. }
    unfold flagged, weekly_mean, pivoted, cleaned. by rewrite Ha.
  - intros Hno. unfold cleaned.
    destruct (astype to_datetime (dropna df)) as [typed|e] eqn:Ha.
    + by eexists.
    + destruct Hno.
      apply astype_Raise_inv in Ha as (r & s & [Hin Hc]%elem_of_dropna & Hs & ?).
      by exists r, s.
Qed.

(** X2. The conversion and [set_index] keep the surviving records, in
    their order: the cleaned table has one row for each record that
    [dropna] keeps, indexed by the conversion of its date, with the
    other columns unchanged. *)
Theorem cleaned_keeps_records (df : list (reading (option string)))
    (indexed : list (datetime64 * reading ())) :
  cleaned to_datetime df = Ok indexed →
  Forall2 (λ r ir, astype_cell to_datetime (ReadingDateTime r) = Ok ir.1 ∧
                   ir.2 = Reading () (Species r) (Value r) (other_columns r))
          (dropna df) indexed.
Proof.
  unfold cleaned.
  destruct (astype to_datetime (dropna df)) as [typed|] eqn:Ha; [|done].
  intros [= <-]. apply astype_Forall2 in Ha. unfold set_index.
  apply Forall2_fmap_r. eapply Forall2_impl; [done|].
  intros r r' (Ht & Hs & Hv & Ho). simpl. split; [done|].
  by rewrite Hs, Hv, Ho.
Qed.


End Errors.

Lemma length_assign {C} (cols : list string) (cells : list C) (c : string)
    (x : C) :
  length cells = length cols →
  length (assign_cells cols cells c x) = length (assign_columns cols c).
Proof.
  intros Hlen. unfold assign_columns. case_decide as Hin.
  - rewrite <-Hlen. revert cells Hlen.
    induction cols as [|c' cols IH]; intros [|y cells] Hlen;
      simpl in *; try done.
    + by apply elem_of_nil in Hin.
    + case_decide as Hc; [done|]. simpl. f_equal. apply IH; [|lia].
      apply elem_of_cons in Hin as [->|?]; done.
  - rewrite assign_cells_not_elem_of by done.
    rewrite !length_app. simpl. lia.
Qed.

Section Tables.

Variable to_datetime : string → option datetime64.





(** X7. Every row of the Wide Table, of the weekly means and of the table
    that is written out has exactly one cell for each column. *)
Theorem one_cell_per_column (df : list (reading (option string)))
    (wide : DataFrame (option Qc)) (out : DataFrame cell) :
  pivoted to_datetime df = Ok wide →
  flagged to_datetime df = Ok out →
  (∀ r, r ∈ rows wide → length r.2 = length (columns wide)) ∧
  (∀ r, r ∈ rows (resample_mean wide) →
        length r.2 = length (columns (resample_mean wide))) ∧
  (∀ r, r ∈ rows out → length r.2 = length (columns out)).
Proof.
  intros Hwide (wide' & Hwide' & Hflag)%flagged_Ok.
  assert (wide' = wide) as -> by congruence.
  apply pivoted_Ok in Hwide as (indexed & _ & _ & ->).
  split; [|split].
  - intros r. rewrite rows_pivot_table.
    intros (t & -> & _)%list_elem_of_fmap. simpl. by rewrite length_fmap.
  - apply resample_mean_row_length.
  - apply add_Hazardous_Ok in Hflag as (_ & -> & ->).
    intros r' (r & -> & Hr%resample_mean_row_length)%list_elem_of_fmap.
    simpl. apply length_assign. by rewrite length_fmap.
Qed.

(** X8. Adding the flag changes no other column: every column but
    [Hazardous] holds in the written table the weekly mean it held
    before, in the same row. *)
Theorem flag_keeps_other_columns (df : list (reading (option string)))
    (wm : DataFrame (option Qc)) (out : DataFrame cell) (i : nat)
    (lab : datetime64) (cells : list (option Qc)) :
  weekly_mean to_datetime df = Ok wm →
  flagged to_datetime df = Ok out →
  rows wm !! i = Some (lab, cells) →
  ∃ cells', rows out !! i = Some (lab, cells') ∧
    ∀ c, c ≠ "Hazardous" →
         get (columns out) cells' c = Float <$> get (columns wm) cells c.
Proof.
  intros Hwm Hout. unfold flagged in Hout. rewrite Hwm in Hout. simpl in Hout.
  apply weekly_mean_Ok in Hwm as (wide & _ & ->).
  apply add_Hazardous_Ok in Hout as (_ & Hcols & Hrows). intros Hi.
  eexists. split; [by rewrite Hrows, list_lookup_fmap, Hi|].
  intros c Hc. simpl. rewrite Hcols, get_assign_ne, get_fmap_cells; try done.
  rewrite length_fmap. symmetry.
  apply (resample_mean_row_length wide (lab, cells)).
  by eapply list_elem_of_lookup_2.
Qed.

(** X9. The column [Hazardous] is appended after the species, unless a
    species is itself named Hazardous: then its weekly means are
    overwritten by the flag and no column is added. *)
Theorem Hazardous_column_position (df : list (reading (option string)))
    (wm : DataFrame (option Qc)) (out : DataFrame cell) :
  weekly_mean to_datetime df = Ok wm →
  flagged to_datetime df = Ok out →
  ("Hazardous" ∉ columns wm → columns out = columns wm ++ ["Hazardous"]) ∧
  ("Hazardous" ∈ columns wm → columns out = columns wm) ∧
  ∀ r, r ∈ rows out → ∃ b, get (columns out) r.2 "Hazardous" = Some (Bool b).
Proof.
  intros Hwm Hout. unfold flagged in Hout. rewrite Hwm in Hout. simpl in Hout.
  apply weekly_mean_Ok in Hwm as (wide & _ & ->).
  apply add_Hazardous_Ok in Hout as (_ & Hcols & Hrows).
  rewrite Hcols, Hrows. unfold assign_columns. split; [|split].
  - intros Hno. by rewrite decide_False.
  - intros Hin. by rewrite decide_True.
  - intros r' (r & -> & Hr%resample_mean_row_length)%list_elem_of_fmap.
    simpl. eexists. fold (assign_columns
      (columns (resample_mean wide)) "Hazardous").
    apply get_assign_eq. by rewrite length_fmap.
Qed.

End Tables.

(** ** The files *)

Section Files.

Variable to_datetime : string → option datetime64.

Lemma notebook_Ok (fs fs' : filesystem) (filepath output_folder p : Path) :
  notebook to_datetime fs filepath output_folder = Ok (fs', p) →
  ∃ df weekly,
    read_csv fs filepath = Ok df ∧
    flagged to_datetime df = Ok weekly ∧
    p = joinpath output_folder "WeeklyMeanAQ.csv" ∧
    folders fs' =
      (if path_exists fs output_folder then folders fs
       else folders (mkdir_parents fs output_folder)) ∧
    output_folder ∈ folders fs' ∧
    files fs' = <[p := Written weekly]> (files fs).
Proof.
  unfold notebook.
  destruct (read_csv fs filepath) as [df|] eqn:Hread; [|done]. simpl.
  destruct (flagged to_datetime df) as [weekly|] eqn:Hflag; [|done]. simpl.
  unfold to_csv. case_decide as Hin; [|done]. simpl. intros [= <- <-].
  exists df, weekly. simpl. repeat (split; [done|]). split.
  - by destruct (path_exists fs output_folder).
  - by destruct (path_exists fs output_folder).
Qed.

(** X13. When the cells run to the end, the folder of the output exists,
    no folder has been removed, none has been created if the folder was
    there, and no file but the output file has been created or
    changed. *)
Theorem notebook_keeps_other_files (fs fs' : filesystem)
    (filepath output_folder p : Path) :
  notebook to_datetime fs filepath output_folder = Ok (fs', p) →
  output_folder ∈ folders fs' ∧
  folders fs ⊆ folders fs' ∧
  (output_folder ∈ folders fs → folders fs' = folders fs) ∧
  ∀ q, q ≠ p → files fs' !! q = files fs !! q.
Proof.
  intros (df & weekly & _ & _ & _ & Hfolders & Hin & Hfiles)%notebook_Ok.
  split; [done|]. split; [|split].
  - rewrite Hfolders. destruct (path_exists fs output_folder); [done|].
    simpl. apply union_subseteq_l.
  - intros Hthere. rewrite Hfolders. unfold path_exists.
    rewrite bool_decide_eq_true_2; [done|by left].
  - intros q Hq. rewrite Hfiles. by apply lookup_insert_ne.
Qed.

(** X14. Running the cells a second time on the files that the first run
    left, with an input file other than the output file, succeeds and
    changes nothing. *)
Theorem notebook_rerun (fs fs' : filesystem)
    (filepath output_folder p : Path) :
  notebook to_datetime fs filepath output_folder = Ok (fs', p) →
  filepath ≠ p →
  notebook to_datetime fs' filepath output_folder = Ok (fs', p).
Proof.
  intros (df & weekly & Hread & Hflag & -> & _ & Hin & Hfiles)%notebook_Ok Hne.
  unfold notebook.
  assert (read_csv fs' filepath = Ok df) as ->.
  { unfold read_csv in *. by rewrite Hfiles, lookup_insert_ne. }
  simpl. rewrite Hflag. simpl.
  assert (path_exists fs' output_folder = true) as ->.
  { unfold path_exists. apply bool_decide_eq_true_2. by left. }
  unfold to_csv. rewrite decide_True by done. simpl. do 2 f_equal.
  destruct fs' as [fo fi]. simpl in *. f_equal.
  by rewrite Hfiles, insert_insert_eq.
Qed.

End Files.

(** ** Only the triples matter *)


Section Triples.

Variable to_datetime : string → option datetime64.


End Triples.

(** ** The further properties on the sample tables *)

Lemma cleaned_three_weeks :
  cleaned parse_datetime three_weeks = Ok three_weeks_indexed.
Proof. compute_done. Qed.

Lemma weekly_mean_three_weeks :
  weekly_mean parse_datetime three_weeks
    = Ok (resample_mean three_weeks_wide).
Proof. compute_done. Qed.

Lemma notebook_sample_files :
  notebook parse_datetime sample_files data_filepath
           another_processed_data_folder
    = Ok (sample_files_after,
          joinpath another_processed_data_folder "WeeklyMeanAQ.csv").
Proof. compute_done. Qed.

Lemma ValueError_iff_bad_date_witness :
  flagged parse_datetime bad_date = Raise ValueError ∧
  ∃ indexed, cleaned parse_datetime bad_date_incomplete = Ok indexed.
Proof.
  split.
  - apply (ValueError_iff_bad_date parse_datetime bad_date).
    exists (sample "yesterday" "NOX" 60), "yesterday".
    repeat split; compute_done.
  - apply (ValueError_iff_bad_date parse_datetime bad_date_incomplete).
    intros (r & s & Hin & Hc & Hs & Hno).
    apply elem_of_cons in Hin as [->|Hin].
    + injection Hs as <-. revert Hno. compute_done.
    + apply list_elem_of_singleton in Hin as ->. revert Hc. compute_done.
Defined.

Lemma cleaned_keeps_records_witness :
  Forall2 (λ r ir, astype_cell parse_datetime (ReadingDateTime r) = Ok ir.1 ∧
                   ir.2 = Reading () (Species r) (Value r) (other_columns r))
          (dropna three_weeks) three_weeks_indexed.
Proof.
  apply (cleaned_keeps_records parse_datetime three_weeks).
  exact cleaned_three_weeks.
Defined.





Lemma one_cell_per_column_witness :
  (∀ r, r ∈ rows three_weeks_wide →
        length r.2 = length (columns three_weeks_wide)) ∧
  (∀ r, r ∈ rows (resample_mean three_weeks_wide) →
        length r.2 = length (columns (resample_mean three_weeks_wide))) ∧
  (∀ r, r ∈ rows three_weeks_out → length r.2 = length (columns three_weeks_out)).
Proof.
  apply (one_cell_per_column parse_datetime three_weeks).
  - exact pivoted_three_weeks.
  - exact flagged_three_weeks.
Defined.

Lemma flag_keeps_other_columns_witness :
  ∃ cells', rows three_weeks_out !! 0%nat = Some (Timestamp Sun_07, cells') ∧
    ∀ c, c ≠ "Hazardous" →
         get (columns three_weeks_out) cells' c =
           Float <$> get (columns (resample_mean three_weeks_wide))
                         [Some (Qc_of_Z 60); None] c.
Proof.
  apply (flag_keeps_other_columns parse_datetime three_weeks).
  - exact weekly_mean_three_weeks.
  - exact flagged_three_weeks.
  - compute_done.
Defined.

Lemma Hazardous_column_position_witness :
  columns species_Hazardous_out = ["Hazardous"; "NOX"] ∧
  ∀ r, r ∈ rows species_Hazardous_out →
       ∃ b, get (columns species_Hazardous_out) r.2 "Hazardous"
              = Some (Bool b).
Proof.
  destruct (Hazardous_column_position parse_datetime species_Hazardous
              (Frame ["Hazardous"; "NOX"]
                 [(Timestamp Sun_07,
                   [Some (Qc_of_Z 3); Some (Qc_of_Z 70)])])
              species_Hazardous_out)
    as (_ & Hsame & Hflag); [compute_done..|].
  split; [|done]. apply Hsame. compute_done.
Defined.


Lemma Hazardous_has_reading_above_50_witness :
  ∃ t v, (t, "NOX", v) ∈ triples parse_datetime three_weeks ∧
         week_label t = Sun_07 ∧ (Qc_of_Z 50 < v)%Qc.
Proof.
  apply (Hazardous_has_reading_above_50 parse_datetime three_weeks
           three_weeks_out Sun_07
           [Float (Some (Qc_of_Z 60)); Float None; Bool true]).
  - exact flagged_three_weeks.
  - compute_done.
  - compute_done.
Defined.


Lemma notebook_keeps_other_files_witness :
  another_processed_data_folder ∈ folders sample_files_after ∧
  folders sample_files ⊆ folders sample_files_after ∧
  files sample_files_after !! data_filepath
    = files sample_files !! data_filepath.
Proof.
  destruct (notebook_keeps_other_files parse_datetime sample_files
              sample_files_after data_filepath
              another_processed_data_folder _ notebook_sample_files)
    as (Hin & Hsub & _ & Hfiles).
  split; [done|]. split; [done|]. apply Hfiles. compute_done.
Defined.

Lemma notebook_rerun_witness :
  notebook parse_datetime sample_files_after data_filepath
           another_processed_data_folder
    = Ok (sample_files_after,
          joinpath another_processed_data_folder "WeeklyMeanAQ.csv").
Proof.
  apply (notebook_rerun parse_datetime sample_files).
  - exact notebook_sample_files.
  - compute_done.
Defined.

